(** * somana-agent: host registration, heartbeat and systemd monitoring

    A shallow embedding of the agent's three Go sources:
    - [cmd/server/main.go] (the polling start-up of the systemd monitor),
    - the [services] package file holding [SystemdMonitorService]
      (the [hostRid string] revision), and
    - the [services] package file holding [HostRegistrationService].

    Go strings are modelled as the sequence of runes that [strings.Fields],
    [strings.TrimSpace] and [range] read from them; the surroundings of the
    process (DNS, the file system, [systemctl], the inventory API) are a
    record [World] of answers; statements that act on a service value run in
    a small monad [Go] that threads the service, collects the observable
    events (log lines, API calls, [go] statements, config saves) and can
    panic. *)

From Stdlib Require Import List ZArith NArith Bool String Ascii Lia.
From Stdlib Require Import DecimalString.
From ExtLib Require Import Structures.Monad.
Import ListNotations.
Import MonadNotation.

Local Open Scope list_scope.
Local Open Scope monad_scope.

(** ** Go strings

    A string is kept as the runes a scan of it decodes, one code point
    each. That is the grain at which [strings.Fields] and
    [strings.TrimSpace] look at it; a byte that is no valid UTF-8 decodes to
    U+FFFD there, which is not white space, and line feed and space are
    single bytes, so [Split] and [Join] act on runes as they act on bytes. *)

Definition rune := N.
Definition gostring := list rune.

(** An ASCII literal of the source, as a Go string. *)
Definition str (s : string) : gostring :=
  map N_of_ascii (list_ascii_of_string s).

Definition gostring_eq_dec : forall a b : gostring, {a = b} + {a <> b} :=
  list_eq_dec N.eq_dec.

(** [s == ""] *)
Definition isEmpty (s : gostring) : bool :=
  match s with [] => true | _ :: _ => false end.

(** [strconv.Itoa] / the [%d] verb. *)
Definition Itoa (z : Z) : gostring :=
  str (NilZero.string_of_int (Z.to_int z)).

Module unicode.

(** [unicode.IsSpace]: the Latin-1 switch, then the White_Space table. *)
Definition IsSpace (r : rune) : bool :=
  if (r <=? 255)%N then
    match r with
    | 9%N | 10%N | 11%N | 12%N | 13%N | 32%N | 133%N | 160%N => true
    | _ => false
    end
  else
    (r =? 5760)%N
    || ((8192 <=? r)%N && (r <=? 8202)%N)
    || (r =? 8232)%N || (r =? 8233)%N
    || (r =? 8239)%N || (r =? 8287)%N || (r =? 12288)%N.

End unicode.

Module strings.

(** Leading white space removed, as the first scan of [TrimSpace] does. *)
Fixpoint TrimLeftSpace (s : gostring) : gostring :=
  match s with
  | [] => []
  | r :: s' => if unicode.IsSpace r then TrimLeftSpace s' else s
  end.

Definition TrimRightSpace (s : gostring) : gostring :=
  rev (TrimLeftSpace (rev s)).

(** [strings.TrimSpace] *)
Definition TrimSpace (s : gostring) : gostring :=
  TrimRightSpace (TrimLeftSpace s).

(** The scan of [strings.Fields]: [cur] holds, reversed, the runes of the
    field being read (empty when the scan is between fields). *)
Fixpoint fieldsFrom (cur s : gostring) : list gostring :=
  match s with
  | [] => match cur with [] => [] | _ :: _ => [rev cur] end
  | r :: s' =>
      if unicode.IsSpace r then
        match cur with
        | [] => fieldsFrom [] s'
        | _ :: _ => rev cur :: fieldsFrom [] s'
        end
      else fieldsFrom (r :: cur) s'
  end.

(** [strings.Fields] *)
Definition Fields (s : gostring) : list gostring := fieldsFrom [] s.

Fixpoint splitFrom (sep : rune) (cur s : gostring) : list gostring :=
  match s with
  | [] => [rev cur]
  | r :: s' =>
      if (r =? sep)%N then rev cur :: splitFrom sep [] s'
      else splitFrom sep (r :: cur) s'
  end.

(** [strings.Split(s, sep)] for a separator of one rune, which is how both
    call sites use it (a line feed). *)
Definition Split (s : gostring) (sep : rune) : list gostring :=
  splitFrom sep [] s.

(** [strings.Join] *)
Fixpoint Join (elems : list gostring) (sep : gostring) : gostring :=
  match elems with
  | [] => []
  | [a] => a
  | a :: rest => a ++ sep ++ Join rest sep
  end.

(** [strings.HasPrefix] *)
Fixpoint HasPrefix (s prefix : gostring) : bool :=
  match prefix, s with
  | [], _ => true
  | _ :: _, [] => false
  | p :: prefix', r :: s' => (r =? p)%N && HasPrefix s' prefix'
  end.

(** [strings.TrimPrefix] *)
Definition TrimPrefix (s prefix : gostring) : gostring :=
  if HasPrefix s prefix then skipn (List.length prefix) s else s.

(** [strings.Contains] *)
Fixpoint Contains (s substr : gostring) : bool :=
  HasPrefix s substr
  || match s with [] => false | _ :: s' => Contains s' substr end.

Fixpoint trimLeftRune (c : rune) (s : gostring) : gostring :=
  match s with
  | [] => []
  | r :: s' => if (r =? c)%N then trimLeftRune c s' else s
  end.

(** [strings.Trim(s, cutset)] for a cutset of one rune. *)
Definition Trim (s : gostring) (c : rune) : gostring :=
  rev (trimLeftRune c (rev (trimLeftRune c s))).

End strings.

(** The line feed and the space of the source's literals. *)
Definition LF : rune := 10%N.
Definition SP : gostring := [32%N].

(** ** Go errors

    An [error] value is kept with what the code asks of it: its text
    ([Error()]), whether [errors.As] finds an [*exec.ExitError] in its chain,
    and whether [errors.Is(err, os.ErrPermission)] holds. *)

Inductive goerror : Type :=
| ExitError (ExitCode : Z) (Stderr text : gostring)   (* *exec.ExitError *)
| SysError (permission : bool) (text : gostring)      (* any other error of the runtime *)
| ErrorNew (text : gostring)                          (* fmt.Errorf without %w *)
| Wrap (prefix : gostring) (err : goerror).           (* fmt.Errorf(prefix + "%w", err) *)

Module errors.

(** [err.Error()] *)
Fixpoint Error (e : goerror) : gostring :=
  match e with
  | ExitError _ _ text => text
  | SysError _ text => text
  | ErrorNew text => text
  | Wrap prefix err => prefix ++ Error err
  end.

(** [errors.As(err, &exitError)]: the exit code and [Stderr] of the
    [*exec.ExitError] found in the chain. *)
Fixpoint AsExitError (e : goerror) : option (Z * gostring) :=
  match e with
  | ExitError code stderr _ => Some (code, stderr)
  | Wrap _ err => AsExitError err
  | SysError _ _ | ErrorNew _ => None
  end.

(** [errors.Is(err, os.ErrPermission)] *)
Fixpoint IsErrPermission (e : goerror) : bool :=
  match e with
  | SysError permission _ => permission
  | Wrap _ err => IsErrPermission err
  | ExitError _ _ _ | ErrorNew _ => false
  end.

End errors.

(** A Go call returning [(value, err)]. *)
Inductive result (A : Type) : Type :=
| Ok (a : A)
| Err (e : goerror).
Arguments Ok {A} a.
Arguments Err {A} e.

(** ** Data of the configuration and of the generated API client

    Neither package is part of the sources at hand; the records hold the
    fields the services read and write. *)

Record HostRegistrationConfig : Type := {
  SprinterURL : gostring;
  HostRid : gostring
}.

Record Config : Type := {
  HostRegistration : HostRegistrationConfig
}.

(** [s.config.HostRegistration.HostRid = rid] *)
Definition setConfigHostRid (cfg : Config) (rid : gostring) : Config :=
  {| HostRegistration :=
       {| SprinterURL := SprinterURL (HostRegistration cfg); HostRid := rid |} |}.

Record Host : Type := { Host_HostRid : gostring }.

Record HostCreateRequest : Type := {
  Hostname : gostring;
  IpAddress : gostring;
  OsName : gostring;
  OsVersion : gostring
}.

Record SystemdUnit : Type := {
  Unit : gostring;
  Load : gostring;
  Active : gostring;
  Sub : gostring;
  Description : gostring
}.

Record SystemdServicesRequest : Type := { Services : list SystemdUnit }.

(** The responses of the generated client: [StatusCode()] and the parsed body. *)
Record GetHostResponse : Type := {
  Get_StatusCode : Z;
  JSON200 : option Host
}.

Record CreateHostResponse : Type := {
  Create_StatusCode : Z;
  JSON201 : option Host
}.

Record StatusResponse : Type := { StatusCode : Z }.

(** The handle [*ClientWithResponses]. *)
Record ClientWithResponses : Type := { Server : gostring }.

Definition StatusOK : Z := 200.
Definition StatusCreated : Z := 201.

(** What the inventory service answers to each call of the client. *)
Record API : Type := {
  GetApiV1HostsHostRid : gostring -> result GetHostResponse;
  PostApiV1Hosts : HostCreateRequest -> result CreateHostResponse;
  PostApiV1HostsHostRidHeartbeat : gostring -> result StatusResponse;
  PutApiV1HostsHostRidSystemdServices :
    gostring -> SystemdServicesRequest -> result StatusResponse
}.

(** ** net.IP *)

Module net.

Definition IP := list N.

(** [ip.To4()], [None] for nil. *)
Definition To4 (ip : IP) : option IP :=
  match ip with
  | [_; _; _; _] => Some ip
  | [0; 0; 0; 0; 0; 0; 0; 0; 0; 0; 255; 255; a; b; c; d]%N => Some [a; b; c; d]
  | _ => None
  end.

Definition IPv6loopback : IP := [0; 0; 0; 0; 0; 0; 0; 0; 0; 0; 0; 0; 0; 0; 0; 1]%N.

(** [ip.IsLoopback()] *)
Definition IsLoopback (ip : IP) : bool :=
  match To4 ip with
  | Some ip4 => (nth 0 ip4 0 =? 127)%N
  | None => if list_eq_dec N.eq_dec ip IPv6loopback then true else false
  end.

(** [ip.String()] on an address whose [To4] is not nil: dotted decimal.
    [getLocalIP] prints no other address; for those the rendering of the
    standard library (IPv6 text, or a hex dump) is not reproduced and the
    model gives back the question mark that starts the hex dump. *)
Definition String (ip : IP) : gostring :=
  match To4 ip with
  | Some [a; b; c; d] =>
      Itoa (Z.of_N a) ++ str "." ++ Itoa (Z.of_N b) ++ str "."
      ++ Itoa (Z.of_N c) ++ str "." ++ Itoa (Z.of_N d)
  | _ => str "?"
  end.

End net.

(** ** Observable events *)

Inductive logarg : Type :=
| AStr (s : gostring)
| AInt (z : Z)
| AErr (e : goerror).

(** The function a [go] statement starts, with the host RID of its receiver. *)
Inductive goroutine : Type :=
| startHeartbeat_of (hostRid : gostring)
| monitorLoop_of (hostRid : gostring).

Inductive event : Type :=
| Log (format : string) (args : list logarg)
| CallGetHost (hostRid : gostring)
| CallCreateHost (body : HostCreateRequest)
| CallHeartbeat (hostRid : gostring)
| CallPutSystemdServices (hostRid : gostring) (body : SystemdServicesRequest)
| CallSaveConfig (cfg : Config) (path : gostring)
| GoStmt (g : goroutine).

(** ** The surroundings of the process *)

Record CmdRun : Type := {
  Stdout : gostring;        (* what cmd.Output() returns *)
  StderrBuf : gostring;     (* what the command wrote to cmd.Stderr *)
  RunErr : option goerror   (* the error of cmd.Output() *)
}.

Record World : Type := {
  GOOS : gostring;
  os_Hostname : result gostring;
  net_LookupIP : gostring -> result (list net.IP);
  os_ReadFile : gostring -> result gostring;
  os_Getenv : gostring -> gostring;
  os_Getuid : Z;
  os_Getgid : Z;
  exec_LookPath : gostring -> option goerror;
  exec_Output : gostring -> list gostring -> CmdRun;
  config_LoadConfig : gostring -> result Config;
  config_SaveConfig : Config -> gostring -> option goerror;
  client_NewClientWithResponses : gostring -> result ClientWithResponses;
  api : API
}.

(** The one-shot stop channel: nothing is ever sent on it, it is open or closed. *)
Inductive chan : Type := Open | Closed.

(** ** The monad of statements *)

Inductive outcome (A : Type) : Type :=
| Returned (a : A)
| Panicked (reason : string).
Arguments Returned {A} a.
Arguments Panicked {A} reason.

(** A statement acting on a value of type [S]: the events it produces, then
    its result and the new value, or a panic. *)
Definition Go (S A : Type) : Type := S -> list event * outcome (A * S).

#[export] Instance Monad_Go (S : Type) : Monad (Go S) := {|
  ret := fun A (a : A) (s : S) => ([], Returned (a, s));
  bind := fun A B (m : Go S A) (f : A -> Go S B) (s : S) =>
    match m s with
    | (t, Returned (a, s')) =>
        match f a s' with (t', o) => (t ++ t', o) end
    | (t, Panicked reason) => (t, Panicked reason)
    end
|}.

Section GoOps.
Context {S : Type}.

Definition get : Go S S := fun s => ([], Returned (s, s)).
Definition put (s : S) : Go S unit := fun _ => ([], Returned (tt, s)).
Definition emit (e : event) : Go S unit := fun s => ([e], Returned (tt, s)).
Definition panic {A : Type} (reason : string) : Go S A :=
  fun _ => ([], Panicked reason).

(** [log.Printf] and [log.Println] *)
Definition logf (format : string) (args : list logarg) : Go S unit :=
  emit (Log format args).

(** Statements on another value [s0] (a service just built), run inside. *)
Definition on {S0 A : Type} (s0 : S0) (m : Go S0 A) : Go S (A * S0) :=
  fun s =>
    match m s0 with
    | (t, Returned r) => (t, Returned (r, s))
    | (t, Panicked reason) => (t, Panicked reason)
    end.

End GoOps.

Definition events {S A : Type} (r : list event * outcome (A * S)) : list event :=
  fst r.

(** [close(ch)] *)
Definition close (ch : chan) : outcome chan :=
  match ch with
  | Open => Returned Closed
  | Closed => Panicked "close of closed channel"
  end.

Definition nilDereference : string :=
  "runtime error: invalid memory address or nil pointer dereference".

(** A method of a [*ClientWithResponses]: a nil client is dereferenced by
    the generated code; otherwise the call is made and the answer of the
    inventory service comes back. *)
Definition viaClient {S R : Type} (c : option ClientWithResponses)
    (call : event) (answer : result R) : Go S (result R) :=
  match c with
  | None => panic nilDereference
  | Some _ => emit call ;; ret answer
  end.

(** How a periodic goroutine stands once the arrivals handed to it are used
    up: still blocked in its [select] (or asleep), or returned. *)
Inductive loopState : Type := Waiting | Exited.

(** What a [select] of a periodic loop receives: a tick of its ticker,
    with the world as it answers during that iteration, or the stop channel. *)
Inductive selected : Type :=
| TickerC (w : World)
| StopChan.

(** ** HostRegistrationService *)

Module HostRegistrationService.

Record t : Type := {
  config : Config;
  client : option ClientWithResponses;
  hostRid : gostring;
  stopChan : chan
}.

Definition set_hostRid (rid : gostring) (s : t) : t :=
  {| config := config s; client := client s; hostRid := rid;
     stopChan := stopChan s |}.

Definition set_config (cfg : Config) (s : t) : t :=
  {| config := cfg; client := client s; hostRid := hostRid s;
     stopChan := stopChan s |}.

Definition set_stopChan (ch : chan) (s : t) : t :=
  {| config := config s; client := client s; hostRid := hostRid s;
     stopChan := ch |}.

(** [NewHostRegistrationService]: the log lines and the service. *)
Definition NewHostRegistrationService (w : World) (cfg : Config)
  : list event * t :=
  let url := SprinterURL (HostRegistration cfg) in
  let made := client_NewClientWithResponses w url in
  ( Log "Creating host registration service with URL: %s" [AStr url]
    :: match made with
       | Err err => [Log "Warning: failed to create client: %v" [AErr err]]
       | Ok _ => [Log "Successfully created API client" []]
       end,
    {| config := cfg;
       client := match made with Ok c => Some c | Err _ => None end;
       hostRid := [];
       stopChan := Open |} ).

(** [GetHostRid] *)
Definition GetHostRid (s : t) : gostring := hostRid s.

(** [GetClient] *)
Definition GetClient (s : t) : option ClientWithResponses := client s.

(** [!addr.IsLoopback() && addr.To4() != nil] *)
Definition nonLoopbackIPv4 (addr : net.IP) : bool :=
  negb (net.IsLoopback addr)
  && match net.To4 addr with Some _ => true | None => false end.

(** The [for] loop of [getLocalIP] and the fallback after it. *)
Fixpoint getLocalIP_scan (addrs : list net.IP) : gostring :=
  match addrs with
  | [] => str "127.0.0.1"
  | addr :: rest =>
      if nonLoopbackIPv4 addr then net.String addr
      else getLocalIP_scan rest
  end.

(** [getLocalIP] *)
Definition getLocalIP (w : World) : result gostring :=
  match os_Hostname w with
  | Err err => Err err
  | Ok hostname =>
      match net_LookupIP w hostname with
      | Err err => Err err
      | Ok addrs => Ok (getLocalIP_scan addrs)
      end
  end.

(** The scan of [/etc/os-release] for the first [PRETTY_NAME=] line. *)
Fixpoint prettyName (lines : list gostring) : option gostring :=
  match lines with
  | [] => None
  | line :: rest =>
      if strings.HasPrefix line (str "PRETTY_NAME=")
      then Some (strings.Trim (strings.TrimPrefix line (str "PRETTY_NAME=")) 34%N)
      else prettyName rest
  end.

(** [exec.Command(name, args...).Output()] read as the source reads it:
    the output when [err == nil]. *)
Definition outputOf (w : World) (name : gostring) (args : list gostring)
  : option gostring :=
  let run := exec_Output w name args in
  match RunErr run with None => Some (Stdout run) | Some _ => None end.

(** [getOSVersion] *)
Definition getOSVersion (w : World) : result gostring :=
  if gostring_eq_dec (GOOS w) (str "linux") then
    let fromFile :=
      match os_ReadFile w (str "/etc/os-release") with
      | Ok data => prettyName (strings.Split data LF)
      | Err _ => None
      end in
    match fromFile with
    | Some version => Ok version
    | None =>
        match outputOf w (str "uname") [str "-r"] with
        | Some output => Ok (str "Linux " ++ strings.TrimSpace output)
        | None => Ok (str "Linux")
        end
    end
  else if gostring_eq_dec (GOOS w) (str "darwin") then
    match outputOf w (str "sw_vers") [str "-productVersion"] with
    | Some output => Ok (str "macOS " ++ strings.TrimSpace output)
    | None => Ok (str "macOS")
    end
  else Ok (GOOS w).

(** [registerHost], from the request for a new host on (the part after the
    check of the persisted RID). *)
Definition registerHost_create (w : World)
    (hostname ipAddress osVersion : gostring) : Go t (option goerror) :=
  let osName :=
    if gostring_eq_dec (GOOS w) (str "darwin") then str "macOS" else GOOS w in
  let reqBody :=
    {| Hostname := hostname; IpAddress := ipAddress;
       OsName := osName; OsVersion := osVersion |} in
  s <- get ;;
  logf "Sending registration request to: %s/api/v1/hosts"
       [AStr (SprinterURL (HostRegistration (config s)))] ;;
  r <- viaClient (client s) (CallCreateHost reqBody) (PostApiV1Hosts (api w) reqBody) ;;
  match r with
  | Err err =>
      logf "Registration request failed: %v" [AErr err] ;;
      ret (Some (Wrap (str "failed to register host: ") err))
  | Ok resp =>
      logf "Registration response status: %d" [AInt (Create_StatusCode resp)] ;;
      if negb (Create_StatusCode resp =? StatusCreated)%Z then
        logf "Registration failed with status: %d"
             [AInt (Create_StatusCode resp)] ;;
        ret (Some (ErrorNew (str "registration failed with status: "
                             ++ Itoa (Create_StatusCode resp))))
      else
        match JSON201 resp with
        | None =>
            logf "No host data in response" [] ;;
            ret (Some (ErrorNew (str "no host data in response")))
        | Some host =>
            put (set_hostRid (Host_HostRid host) s) ;;
            s1 <- get ;;
            put (set_config (setConfigHostRid (config s1) (hostRid s1)) s1) ;;
            s2 <- get ;;
            emit (CallSaveConfig (config s2) (str "config/config.yaml")) ;;
            match config_SaveConfig w (config s2) (str "config/config.yaml") with
            | Some err =>
                logf "Warning: failed to save host RID to config: %v" [AErr err]
            | None => ret tt
            end ;;
            logf "Successfully registered host with RID: %s" [AStr (hostRid s2)] ;;
            ret None
        end
  end.

(** [registerHost] *)
Definition registerHost (w : World)
    (hostname ipAddress osVersion : gostring) : Go t (option goerror) :=
  logf "Attempting to register host: %s (%s) - %s"
       [AStr hostname; AStr ipAddress; AStr osVersion] ;;
  s <- get ;;
  if negb (isEmpty (HostRid (HostRegistration (config s)))) then
    let hostRid := HostRid (HostRegistration (config s)) in
    logf "Checking if host RID %s exists" [AStr hostRid] ;;
    r <- viaClient (client s) (CallGetHost hostRid) (GetApiV1HostsHostRid (api w) hostRid) ;;
    match r with
    | Err err =>
        logf "Failed to check host existence: %v" [AErr err] ;;
        ret (Some (Wrap (str "failed to check host existence: ") err))
    | Ok resp =>
        if (Get_StatusCode resp =? StatusOK)%Z
           && match JSON200 resp with Some _ => true | None => false end
        then
          put (set_hostRid hostRid s) ;;
          logf "Found existing host with RID: %s" [AStr hostRid] ;;
          ret None
        else
          logf "Host with RID %s does not exist, will create new host"
               [AStr hostRid] ;;
          registerHost_create w hostname ipAddress osVersion
    end
  else registerHost_create w hostname ipAddress osVersion.

(** [sendHeartbeat] *)
Definition sendHeartbeat (w : World) : Go t (option goerror) :=
  s <- get ;;
  r <- viaClient (client s) (CallHeartbeat (hostRid s))
                 (PostApiV1HostsHostRidHeartbeat (api w) (hostRid s)) ;;
  match r with
  | Err err => ret (Some (Wrap (str "failed to send heartbeat: ") err))
  | Ok resp =>
      if negb (StatusCode resp =? StatusOK)%Z then
        ret (Some (ErrorNew (str "heartbeat failed with status: "
                             ++ Itoa (StatusCode resp))))
      else
        logf "Heartbeat sent successfully" [] ;;
        ret None
  end.

(** [startHeartbeat]: the [for]/[select] loop, run on the arrivals its
    [select] receives one after the other. *)
Fixpoint startHeartbeat (arrivals : list selected) : Go t loopState :=
  match arrivals with
  | [] => ret Waiting
  | TickerC w :: later =>
      r <- sendHeartbeat w ;;
      match r with
      | Some err => logf "Failed to send heartbeat: %v" [AErr err]
      | None => ret tt
      end ;;
      startHeartbeat later
  | StopChan :: _ => ret Exited
  end.

(** [Start] *)
Definition Start (w : World) : Go t (option goerror) :=
  s <- get ;;
  if isEmpty (SprinterURL (HostRegistration (config s))) then
    logf "Host registration not configured - skipping" [] ;;
    ret None
  else
    match os_Hostname w with
    | Err err => ret (Some (Wrap (str "failed to get hostname: ") err))
    | Ok hostname =>
        match getLocalIP w with
        | Err err => ret (Some (Wrap (str "failed to get IP address: ") err))
        | Ok ipAddress =>
            osVersion <-
              match getOSVersion w with
              | Err err =>
                  logf "Warning: failed to get OS version: %v" [AErr err] ;;
                  ret (str "Unknown")
              | Ok v => ret v
              end ;;
            r <- registerHost w hostname ipAddress osVersion ;;
            match r with
            | Some err => ret (Some (Wrap (str "failed to register host: ") err))
            | None =>
                s' <- get ;;
                emit (GoStmt (startHeartbeat_of (hostRid s'))) ;;
                logf "Host registration started - Host RID: %s"
                     [AStr (hostRid s')] ;;
                ret None
            end
        end
    end.

(** [Stop] *)
Definition Stop : Go t unit :=
  s <- get ;;
  if negb (isEmpty (SprinterURL (HostRegistration (config s)))) then
    match close (stopChan s) with
    | Panicked reason => panic reason
    | Returned ch =>
        put (set_stopChan ch s) ;;
        logf "Host registration stopped" []
    end
  else ret tt.

End HostRegistrationService.

(** ** SystemdMonitorService (the revision keyed by [hostRid]) *)

Module SystemdMonitorService.

Record t : Type := {
  config : Config;
  client : option ClientWithResponses;
  hostRid : gostring;
  stopChan : chan
}.

Definition set_stopChan (ch : chan) (s : t) : t :=
  {| config := config s; client := client s; hostRid := hostRid s;
     stopChan := ch |}.

(** [NewSystemdMonitorService] *)
Definition NewSystemdMonitorService (cfg : Config)
    (apiClient : option ClientWithResponses) (hostRid : gostring) : t :=
  {| config := cfg; client := apiClient; hostRid := hostRid;
     stopChan := Open |}.

(** [parts[i]], read under the length test that guards it. *)
Definition index (parts : list gostring) (i : nat) : gostring :=
  nth i parts [].

Definition unitOf (parts : list gostring) : SystemdUnit :=
  {| Unit := index parts 0;
     Load := index parts 1;
     Active := index parts 2;
     Sub := index parts 3;
     Description := strings.Join (skipn 4 parts) SP |}.

(** One turn of the [for _, line := range lines] loop of
    [getSystemdServices]: [services] before, [services] after. *)
Definition parseLine (services : list SystemdUnit) (line : gostring)
  : list SystemdUnit :=
  let line := strings.TrimSpace line in
  if isEmpty line then services
  else
    let parts := strings.Fields line in
    if (List.length parts <? 5)%nat then
      if (4 <=? List.length parts)%nat
      then services ++ [unitOf parts]
      else services
    else services ++ [unitOf parts].

Definition parseLines (lines : list gostring) : list SystemdUnit :=
  fold_left parseLine lines [].

(** The parse of the command's output, from [strings.Split] to the end of
    the loop. *)
Definition parseOutput (output : gostring) : list SystemdUnit :=
  parseLines (strings.Split (strings.TrimSpace output) LF).

Definition systemctlArgs : list gostring :=
  [str "list-units"; str "--type=service"; str "--no-pager"; str "--no-legend"].

Definition permissionDenied (err : goerror) : bool :=
  errors.IsErrPermission err
  || strings.Contains (errors.Error err) (str "permission denied").

(** [getSystemdServices] *)
Definition getSystemdServices (w : World) : Go t (result (list SystemdUnit)) :=
  match exec_LookPath w (str "systemctl") with
  | Some _ =>
      logf "systemctl not found - returning empty list" [] ;;
      ret (Ok [])
  | None =>
      let run := exec_Output w (str "systemctl") systemctlArgs in
      match RunErr run with
      | Some err =>
          let stderrStr := strings.TrimSpace (StderrBuf run) in
          match errors.AsExitError err with
          | Some (exitCode, _) =>
              let errMsg :=
                str "systemctl command failed with exit code " ++ Itoa exitCode in
              let errMsg :=
                if negb (isEmpty stderrStr)
                then errMsg ++ str ": " ++ stderrStr else errMsg in
              let errMsg :=
                if (exitCode =? 1)%Z
                then errMsg ++ str " (likely permission issue - systemctl may require elevated privileges)"
                else errMsg in
              ret (Err (Wrap (str "failed to run systemctl: " ++ errMsg ++ str ": ") err))
          | None =>
              if permissionDenied err then
                ret (Err (Wrap (str "permission denied running systemctl (current user: "
                                ++ os_Getenv w (str "USER") ++ str ", UID: "
                                ++ Itoa (os_Getuid w) ++ str "): ") err))
              else if negb (isEmpty stderrStr) then
                ret (Err (Wrap (str "failed to run systemctl (stderr: "
                                ++ stderrStr ++ str "): ") err))
              else ret (Err (Wrap (str "failed to run systemctl: ") err))
          end
      | None => ret (Ok (parseOutput (Stdout run)))
      end
  end.

(** The diagnostics of [reportSystemdServices] on a failed collection. *)
Definition diagnose (w : World) (err : goerror) : Go t unit :=
  logf "ERROR: Failed to get systemd services: %v" [AErr err] ;;
  match errors.AsExitError err with
  | Some (exitCode, stderr) =>
      if (exitCode =? 1)%Z then
        logf "ERROR: systemctl command failed with exit code 1 - this may indicate permission issues" [] ;;
        logf "ERROR: Current user: %s, UID: %d, GID: %d"
             [AStr (os_Getenv w (str "USER")); AInt (os_Getuid w); AInt (os_Getgid w)] ;;
        (if negb (isEmpty stderr)
         then logf "ERROR: systemctl stderr: %s" [AStr stderr]
         else ret tt) ;;
        logf "ERROR: Suggestion: Ensure the service is running with appropriate permissions (may need to run as root or add user to systemd-journal group)" []
      else ret tt
  | None => ret tt
  end ;;
  if permissionDenied err
  then logf "ERROR: Permission denied accessing systemd - ensure the process has appropriate permissions" []
  else ret tt.

(** [reportSystemdServices] *)
Definition reportSystemdServices (w : World) : Go t unit :=
  r <- getSystemdServices w ;;
  services <-
    match r with
    | Err err => diagnose w err ;; ret []
    | Ok services => ret services
    end ;;
  let reqBody := {| Services := services |} in
  s <- get ;;
  resp <- viaClient (client s) (CallPutSystemdServices (hostRid s) reqBody)
            (PutApiV1HostsHostRidSystemdServices (api w) (hostRid s) reqBody) ;;
  match resp with
  | Err err => logf "Failed to report systemd services: %v" [AErr err]
  | Ok resp =>
      if negb (StatusCode resp =? StatusOK)%Z
      then logf "Failed to report systemd services: status %d" [AInt (StatusCode resp)]
      else logf "Reported %d systemd services successfully"
                [AInt (Z.of_nat (List.length services))]
  end.

(** The [for]/[select] loop of [monitorLoop]. *)
Fixpoint monitorLoop_select (arrivals : list selected) : Go t loopState :=
  match arrivals with
  | [] => ret Waiting
  | TickerC w :: later => reportSystemdServices w ;; monitorLoop_select later
  | StopChan :: _ => ret Exited
  end.

(** [monitorLoop]: one report at once (in the world [now]), then the loop. *)
Definition monitorLoop (now : World) (arrivals : list selected) : Go t loopState :=
  reportSystemdServices now ;;
  monitorLoop_select arrivals.

(** [Start] *)
Definition Start : Go t (option goerror) :=
  s <- get ;;
  if isEmpty (hostRid s) then
    logf "Host RID not set - skipping systemd monitoring" [] ;;
    ret None
  else
    emit (GoStmt (monitorLoop_of (hostRid s))) ;;
    logf "Systemd monitoring service started for host RID: %s" [AStr (hostRid s)] ;;
    ret None.

(** [Stop] *)
Definition Stop : Go t unit :=
  s <- get ;;
  if negb (isEmpty (hostRid s)) then
    match close (stopChan s) with
    | Panicked reason => panic reason
    | Returned ch =>
        put (set_stopChan ch s) ;;
        logf "Systemd monitoring service stopped" []
    end
  else ret tt.

End SystemdMonitorService.

(** ** main (the revision that polls for the host RID) *)

Module main.

(** [systemdStarted.Do(f)] on the [sync.Once] whose done flag is the state. *)
Definition Once_Do (f : Go bool unit) : Go bool unit :=
  done <- get ;;
  if (done : bool) then ret tt
  else f ;; put true.

(** The function handed to [systemdStarted.Do]. [cfg] is the pointer the
    registration service holds as well, so the monitor is built on the
    configuration as the registration service has it at that moment. *)
Definition startMonitor (hostRegService : HostRegistrationService.t)
    (hostRid : gostring) : Go bool unit :=
  let apiClient := HostRegistrationService.GetClient hostRegService in
  match apiClient with
  | Some _ =>
      let systemdMonitor :=
        SystemdMonitorService.NewSystemdMonitorService
          (HostRegistrationService.config hostRegService) apiClient hostRid in
      r <- on systemdMonitor SystemdMonitorService.Start ;;
      match fst r with
      | Some err => logf "Warning: Failed to start systemd monitoring: %v" [AErr err]
      | None => logf "Systemd monitoring started for host RID: %s" [AStr hostRid]
      end
  | None => ret tt
  end.

(** The goroutine of [main] that waits for the host RID: one element of
    [polls] per turn of its loop, the registration service as the turn
    finds it. The state is the [sync.Once]. *)
Fixpoint watcher (polls : list HostRegistrationService.t) : Go bool loopState :=
  match polls with
  | [] => ret Waiting
  | hostRegService :: later =>
      let hostRid := HostRegistrationService.GetHostRid hostRegService in
      if negb (isEmpty hostRid) then
        Once_Do (startMonitor hostRegService hostRid) ;;
        ret Exited
      else watcher later
  end.

(** [main] up to the [go] statement: [None] when [log.Fatal] ends the
    process, else the registration service after [Start]. *)
Definition main_setup (w : World) (configPath : gostring)
  : list event * outcome (option HostRegistrationService.t) :=
  match config_LoadConfig w configPath with
  | Err err => ([Log "Failed to load configuration:" [AErr err]], Returned None)
  | Ok cfg =>
      let (t0, hostRegService) :=
        HostRegistrationService.NewHostRegistrationService w cfg in
      match HostRegistrationService.Start w hostRegService with
      | (t1, Panicked reason) => (t0 ++ t1, Panicked reason)
      | (t1, Returned (err, hostRegService')) =>
          (t0 ++ t1
           ++ match err with
              | Some e => [Log "Warning: Failed to start host registration: %v" [AErr e]]
              | None => []
              end,
           Returned (Some hostRegService'))
      end
  end.

(** The events of the watcher in a run of [main] during which the watcher
    gets [n] turns. After [Start] has returned nothing writes the
    registration service (the heartbeat goroutine only reads it), so every
    turn finds it as [Start] left it. *)
Definition main_watcher (w : World) (configPath : gostring) (n : nat)
  : list event :=
  match main_setup w configPath with
  | (_, Returned (Some hostRegService)) =>
      events (watcher (repeat hostRegService n) false)
  | _ => []
  end.

(** What [main] of the other revision does once the registration service
    has been started: it looks at the host RID a single time (after a sleep
    of two seconds) and starts the monitor if there is one. *)
Definition blocking_monitor (hostRegService : HostRegistrationService.t)
  : Go unit unit :=
  let hostRid := HostRegistrationService.GetHostRid hostRegService in
  if negb (isEmpty hostRid) then
    let apiClient := HostRegistrationService.GetClient hostRegService in
    match apiClient with
    | Some _ =>
        let systemdMonitor :=
          SystemdMonitorService.NewSystemdMonitorService
            (HostRegistrationService.config hostRegService) apiClient hostRid in
        r <- on systemdMonitor SystemdMonitorService.Start ;;
        match fst r with
        | Some err => logf "Warning: Failed to start systemd monitoring: %v" [AErr err]
        | None => ret tt
        end
    | None => ret tt
    end
  else ret tt.

(** The events of that revision of [main] after the start of the
    registration service, up to its final [select]. *)
Definition main_blocking (w : World) (configPath : gostring) : list event :=
  match main_setup w configPath with
  | (_, Returned (Some hostRegService)) =>
      events (blocking_monitor hostRegService tt)
      ++ [Log "Host registration service started. Press Ctrl+C to exit." []]
  | _ => []
  end.

End main.

(** ** Vocabulary of the statements *)

(** The calls and [go] statements found in a list of events, in order. *)
Definition lookupCalls (t : list event) : list gostring :=
  flat_map (fun e => match e with CallGetHost rid => [rid] | _ => [] end) t.

Definition createCalls (t : list event) : list HostCreateRequest :=
  flat_map (fun e => match e with CallCreateHost body => [body] | _ => [] end) t.

Definition heartbeatCalls (t : list event) : list gostring :=
  flat_map (fun e => match e with CallHeartbeat rid => [rid] | _ => [] end) t.

Definition putCalls (t : list event) : list (gostring * SystemdServicesRequest) :=
  flat_map (fun e => match e with
                     | CallPutSystemdServices rid body => [(rid, body)]
                     | _ => []
                     end) t.

Definition saveCalls (t : list event) : list (Config * gostring) :=
  flat_map (fun e => match e with CallSaveConfig cfg path => [(cfg, path)] | _ => [] end) t.

Definition monitorStarts (t : list event) : list gostring :=
  flat_map (fun e => match e with GoStmt (monitorLoop_of rid) => [rid] | _ => [] end) t.

Definition heartbeatStarts (t : list event) : list gostring :=
  flat_map (fun e => match e with GoStmt (startHeartbeat_of rid) => [rid] | _ => [] end) t.

(** The errors logged by [startHeartbeat] for failed beats. *)
Definition heartbeatFailureLogs (t : list event) : list goerror :=
  flat_map (fun e => match e with
                     | Log "Failed to send heartbeat: %v" [AErr err] => [err]
                     | _ => []
                     end) t.

(** The worlds of the ticks that arrive before the stop channel does. *)
Fixpoint ticksBeforeStop (arrivals : list selected) : list World :=
  match arrivals with
  | [] => []
  | TickerC w :: later => w :: ticksBeforeStop later
  | StopChan :: _ => []
  end.

(** The error [sendHeartbeat] returns for the answer of the service, if the
    answer is a failure (a transport error, or a status other than 200). *)
Definition beatFailure (w : World) (rid : gostring) : list goerror :=
  match PostApiV1HostsHostRidHeartbeat (api w) rid with
  | Err err => [Wrap (str "failed to send heartbeat: ") err]
  | Ok resp =>
      if (StatusCode resp =? StatusOK)%Z then []
      else [ErrorNew (str "heartbeat failed with status: " ++ Itoa (StatusCode resp))]
  end.

(** White space and fields, as the specification speaks of them: a run of
    white space, a field (non-empty, free of white space), and a line that
    splits on runs of white space into a given list of fields. *)
Definition spaces (ws : gostring) : Prop :=
  Forall (fun r => unicode.IsSpace r = true) ws.

Definition field (f : gostring) : Prop :=
  f <> [] /\ Forall (fun r => unicode.IsSpace r = false) f.

Inductive splits_into : gostring -> list gostring -> Prop :=
| splits_blank ws :
    spaces ws -> splits_into ws []
| splits_last ws f :
    spaces ws -> field f -> splits_into (ws ++ f) [f]
| splits_more ws f r rest fs :
    spaces ws -> field f -> unicode.IsSpace r = true ->
    splits_into rest fs -> splits_into (ws ++ f ++ r :: rest) (f :: fs).

(** The lookup answer on which [registerHost] adopts the persisted RID:
    status 200 with a parsed body. *)
Definition hostExists (resp : GetHostResponse) : bool :=
  (Get_StatusCode resp =? StatusOK)%Z
  && match JSON200 resp with Some _ => true | None => false end.

(** The request [registerHost] builds for a new host. *)
Definition createRequest (w : World) (hostname ipAddress osVersion : gostring)
  : HostCreateRequest :=
  {| Hostname := hostname;
     IpAddress := ipAddress;
     OsName := if gostring_eq_dec (GOOS w) (str "darwin") then str "macOS" else GOOS w;
     OsVersion := osVersion |}.

(** The answer to a create call has the created status (201) and carries a
    parsed body, the host [JSON201] points to. Nothing is asked of the RID
    inside it: a body without the identifier parses to a host whose RID is
    the empty string. *)
Definition createdWith (answer : result CreateHostResponse) (host : Host) : Prop :=
  exists resp, answer = Ok resp
               /\ Create_StatusCode resp = StatusCreated
               /\ JSON201 resp = Some host.

(** Two calls of a method in sequence. *)
Definition twice {S : Type} (m : Go S unit) : Go S unit := m ;; m.


(** ** A concrete host, for the examples

    The host [box1] of the end-to-end scenario: the inventory service knows
    the host [h1] and answers a create call with [h1]. *)

Definition connectionRefused : goerror :=
  SysError false (str "dial tcp: connection refused").

Definition noSuchHost : goerror :=
  SysError false (str "lookup box1: no such host").

Definition notInPath : goerror :=
  SysError false (str "executable file not found in $PATH").

Definition h1 : Host := {| Host_HostRid := str "h1" |}.

Definition inventory : API := {|
  GetApiV1HostsHostRid := fun rid =>
    if gostring_eq_dec rid (str "h1")
    then Ok {| Get_StatusCode := 200; JSON200 := Some h1 |}
    else Ok {| Get_StatusCode := 404; JSON200 := None |};
  PostApiV1Hosts := fun _ => Ok {| Create_StatusCode := 201; JSON201 := Some h1 |};
  PostApiV1HostsHostRidHeartbeat := fun _ => Ok {| StatusCode := 200 |};
  PutApiV1HostsHostRidSystemdServices := fun _ _ => Ok {| StatusCode := 200 |}
|}.

(** An inventory service that answers a create call with status 201 and a
    body that lacks the identifier. *)
Definition inventory_noRID : API := {|
  GetApiV1HostsHostRid := GetApiV1HostsHostRid inventory;
  PostApiV1Hosts := fun _ =>
    Ok {| Create_StatusCode := 201; JSON201 := Some {| Host_HostRid := [] |} |};
  PostApiV1HostsHostRidHeartbeat := PostApiV1HostsHostRidHeartbeat inventory;
  PutApiV1HostsHostRidSystemdServices := PutApiV1HostsHostRidSystemdServices inventory
|}.

Definition unreachable : API := {|
  GetApiV1HostsHostRid := fun _ => Err connectionRefused;
  PostApiV1Hosts := fun _ => Err connectionRefused;
  PostApiV1HostsHostRidHeartbeat := fun _ => Err connectionRefused;
  PutApiV1HostsHostRidSystemdServices := fun _ _ => Err connectionRefused
|}.

Definition systemctlOutput : gostring :=
  str "sshd.service loaded active running OpenSSH server"
  ++ [LF] ++ str "cron.service loaded active running" ++ [LF].

Definition cfgFresh : Config :=
  {| HostRegistration :=
       {| SprinterURL := str "http://inventory:8080"; HostRid := [] |} |}.

Definition cfgRegistered : Config := setConfigHostRid cfgFresh (str "h1").

Definition cfgUnconfigured : Config :=
  {| HostRegistration := {| SprinterURL := []; HostRid := [] |} |}.

Definition systemctlRuns : CmdRun :=
  {| Stdout := systemctlOutput; StderrBuf := []; RunErr := None |}.

Definition systemctlDenied : CmdRun :=
  {| Stdout := [];
     StderrBuf := str "Failed to connect to bus: Permission denied" ++ [LF];
     RunErr := Some (ExitError 1 [] (str "exit status 1")) |}.

(** [box1] with a given name resolution, path lookup, run of [systemctl]
    and inventory service. *)
Definition box1_with (lookup : result (list net.IP))
    (lookPath : option goerror) (run : CmdRun) (service : API) : World := {|
  GOOS := str "linux";
  os_Hostname := Ok (str "box1");
  net_LookupIP := fun _ => lookup;
  os_ReadFile := fun _ => Err (SysError false (str "no such file or directory"));
  os_Getenv := fun _ => str "agent";
  os_Getuid := 1000;
  os_Getgid := 1000;
  exec_LookPath := fun _ => lookPath;
  exec_Output := fun name _ =>
    if gostring_eq_dec name (str "systemctl") then run
    else {| Stdout := []; StderrBuf := []; RunErr := Some notInPath |};
  config_LoadConfig := fun _ => Ok cfgFresh;
  config_SaveConfig := fun _ _ => None;
  client_NewClientWithResponses := fun url => Ok {| Server := url |};
  api := service
|}.

Definition box1_addrs : list net.IP := [[127; 0; 0; 1]; [10; 0; 0; 5]]%N.

Definition box1 : World :=
  box1_with (Ok box1_addrs) None systemctlRuns inventory.

Definition box1_offline : World :=
  box1_with (Ok box1_addrs) None systemctlRuns unreachable.

Definition box1_noDNS : World :=
  box1_with (Err noSuchHost) None systemctlRuns inventory.

Definition box1_noSystemctl : World :=
  box1_with (Ok box1_addrs) (Some notInPath) systemctlRuns inventory.

Definition box1_noRID : World :=
  box1_with (Ok box1_addrs) None systemctlRuns inventory_noRID.

Definition box1_denied : World :=
  box1_with (Ok box1_addrs) None systemctlDenied inventory.

Definition serviceOn (cfg : Config) : HostRegistrationService.t :=
  snd (HostRegistrationService.NewHostRegistrationService box1 cfg).

Definition monitorOf (rid : gostring) : SystemdMonitorService.t :=
  SystemdMonitorService.NewSystemdMonitorService
    cfgRegistered (Some {| Server := str "http://inventory:8080" |}) rid.

(** The registration service once it holds the RID [h1]. *)
Definition registered : HostRegistrationService.t :=
  HostRegistrationService.set_hostRid (str "h1") (serviceOn cfgRegistered).

Definition configPath : gostring := str "config/config.yaml".

(** ** Vocabulary of the further statements *)

(** A unit as a parse can give it back: four fields, and a description that
    is a list of fields joined by single spaces (the empty one included). *)
Definition wellFormedUnit (u : SystemdUnit) : Prop :=
  field (Unit u) /\ field (Load u) /\ field (Active u) /\ field (Sub u)
  /\ strings.Join (strings.Fields (Description u)) SP = Description u.

(** A unit written as a line of [systemctl list-units], and units as its
    output. *)
Definition renderUnit (u : SystemdUnit) : gostring :=
  strings.Join
    ([Unit u; Load u; Active u; Sub u]
     ++ match Description u with [] => [] | _ :: _ => [Description u] end)
    SP.

Definition renderUnits (us : list SystemdUnit) : gostring :=
  strings.Join (map renderUnit us) [LF].

(** The units one collection gives in a world: those of the output of
    [systemctl] when it is found and runs, none otherwise. *)
Definition collected (w : World) : list SystemdUnit :=
  match exec_LookPath w (str "systemctl") with
  | Some _ => []
  | None =>
      let run := exec_Output w (str "systemctl") SystemdMonitorService.systemctlArgs in
      match RunErr run with
      | Some _ => []
      | None => SystemdMonitorService.parseOutput (Stdout run)
      end
  end.

(** The warnings [Start] logs when [getOSVersion] fails. *)
Definition osVersionWarnings (t : list event) : list goerror :=
  flat_map (fun e => match e with
                     | Log "Warning: failed to get OS version: %v" [AErr err] => [err]
                     | _ => []
                     end) t.

(** A world with another answer of [config.SaveConfig], and one with
    another content of the files. *)
Definition withSaveConfig (w : World) (answer : option goerror) : World := {|
  GOOS := GOOS w;
  os_Hostname := os_Hostname w;
  net_LookupIP := net_LookupIP w;
  os_ReadFile := os_ReadFile w;
  os_Getenv := os_Getenv w;
  os_Getuid := os_Getuid w;
  os_Getgid := os_Getgid w;
  exec_LookPath := exec_LookPath w;
  exec_Output := exec_Output w;
  config_LoadConfig := config_LoadConfig w;
  config_SaveConfig := fun _ _ => answer;
  client_NewClientWithResponses := client_NewClientWithResponses w;
  api := api w
|}.

Definition withFiles (w : World) (files : gostring -> result gostring) : World := {|
  GOOS := GOOS w;
  os_Hostname := os_Hostname w;
  net_LookupIP := net_LookupIP w;
  os_ReadFile := files;
  os_Getenv := os_Getenv w;
  os_Getuid := os_Getuid w;
  os_Getgid := os_Getgid w;
  exec_LookPath := exec_LookPath w;
  exec_Output := exec_Output w;
  config_LoadConfig := config_LoadConfig w;
  config_SaveConfig := config_SaveConfig w;
  client_NewClientWithResponses := client_NewClientWithResponses w;
  api := api w
|}.

(** What [registerHost] leaves alone. *)
Definition sameButRID (s s' : HostRegistrationService.t) : Prop :=
  HostRegistrationService.client s' = HostRegistrationService.client s
  /\ HostRegistrationService.stopChan s' = HostRegistrationService.stopChan s
  /\ SprinterURL (HostRegistration (HostRegistrationService.config s'))
     = SprinterURL (HostRegistration (HostRegistrationService.config s)).

(** A string without line feed. *)
Definition noLF (s : gostring) : Prop := Forall (fun r => r <> LF) s.

(** The service of [box1] after the host [h1] has been created for it. *)
Definition created : HostRegistrationService.t :=
  HostRegistrationService.set_config (setConfigHostRid cfgFresh (str "h1"))
    (HostRegistrationService.set_hostRid (str "h1") (serviceOn cfgFresh)).

Definition readOnlyDisk : goerror :=
  SysError false (str "open config/config.yaml: read-only file system").

Definition QUOTE : rune := 34%N.

(** An [/etc/os-release] of three lines, the second one naming the system. *)
Definition osRelease : gostring :=
  str "NAME=Ubuntu" ++ [LF]
  ++ str "PRETTY_NAME=" ++ [QUOTE] ++ str "Ubuntu 22.04.3 LTS" ++ [QUOTE] ++ [LF]
  ++ str "ID=ubuntu" ++ [LF].

Definition sshd : SystemdUnit :=
  {| Unit := str "sshd.service"; Load := str "loaded"; Active := str "active";
     Sub := str "running"; Description := str "OpenSSH server" |}.

Definition cron : SystemdUnit :=
  {| Unit := str "cron.service"; Load := str "loaded"; Active := str "active";
     Sub := str "running"; Description := [] |}.

(** * Proofs *)

Arguments str : simpl never.
Arguments Itoa : simpl never.
Arguments strings.TrimSpace : simpl never.
Arguments strings.Contains : simpl never.

Lemma isEmpty_true (s : gostring) : isEmpty s = true <-> s = [].
Proof. destruct s; simpl; split; congruence. Qed.

Lemma isEmpty_false (s : gostring) : isEmpty s = false <-> s <> [].
Proof. destruct s; simpl; split; congruence. Qed.

(** ** Sequencing in [Go] *)

Section MonadFacts.
Context {S : Type}.

Lemma events_emit_then {A : Type} (e : event) (k : Go S A) (s : S) :
  events ((emit e ;; k) s) = e :: events (k s).
Proof.
  unfold events. cbn. destruct (k s) as [tr o]. reflexivity.
Qed.

Lemma bind_returned {A B : Type} (m : Go S A) (k : A -> Go S B)
    (s s' : S) (tr : list event) (a : A) :
  m s = (tr, Returned (a, s')) ->
  (x <- m ;; k x) s = (tr ++ fst (k a s'), snd (k a s')).
Proof.
  intros H. cbn. rewrite H. destruct (k a s') as [tr' o]. reflexivity.
Qed.

End MonadFacts.

Lemma heartbeatCalls_app (t1 t2 : list event) :
  heartbeatCalls (t1 ++ t2) = heartbeatCalls t1 ++ heartbeatCalls t2.
Proof. apply flat_map_app. Qed.

Lemma heartbeatFailureLogs_app (t1 t2 : list event) :
  heartbeatFailureLogs (t1 ++ t2)
  = heartbeatFailureLogs t1 ++ heartbeatFailureLogs t2.
Proof. apply flat_map_app. Qed.

Lemma putCalls_app (t1 t2 : list event) :
  putCalls (t1 ++ t2) = putCalls t1 ++ putCalls t2.
Proof. apply flat_map_app. Qed.

(** ** The parser: [strings.Fields] and the loop over the lines *)

Section Fields.
Import strings.

Lemma fieldsFrom_spaces ws s :
  spaces ws -> fieldsFrom [] (ws ++ s) = fieldsFrom [] s.
Proof.
  induction 1 as [|r ws Hr _ IH]; simpl; [reflexivity|].
  now rewrite Hr.
Qed.

Lemma fieldsFrom_word f : forall cur s,
  Forall (fun r => unicode.IsSpace r = false) f ->
  fieldsFrom cur (f ++ s) = fieldsFrom (rev f ++ cur) s.
Proof.
  induction f as [|r f IH]; intros cur s Hf; simpl; [reflexivity|].
  inversion Hf as [|? ? Hr Hf']; subst.
  rewrite Hr, IH by assumption.
  now rewrite <- app_assoc.
Qed.

Lemma fieldsFrom_trailing ws :
  spaces ws -> forall cur, fieldsFrom cur ws = fieldsFrom cur [].
Proof.
  induction 1 as [|r ws Hr Hws IH]; intros cur; simpl; [reflexivity|].
  rewrite Hr. destruct cur; [exact (IH [])|].
  now rewrite (IH []).
Qed.

Lemma fieldsFrom_app_spaces s : forall cur ws,
  spaces ws -> fieldsFrom cur (s ++ ws) = fieldsFrom cur s.
Proof.
  induction s as [|r s IH]; intros cur ws Hws; simpl.
  - now apply fieldsFrom_trailing.
  - destruct (unicode.IsSpace r); [destruct cur|]; now rewrite IH.
Qed.

Lemma TrimLeftSpace_split s :
  exists ws, spaces ws /\ s = ws ++ TrimLeftSpace s.
Proof.
  induction s as [|r s (ws & Hws & E)]; simpl.
  - exists []. split; [constructor | reflexivity].
  - destruct (unicode.IsSpace r) eqn:Hr.
    + exists (r :: ws). split; [now constructor | simpl; now f_equal].
    + exists []. split; [constructor | reflexivity].
Qed.

Lemma spaces_rev ws : spaces ws -> spaces (rev ws).
Proof. unfold spaces. intros H. now apply Forall_rev. Qed.

Lemma TrimRightSpace_split s :
  exists ws, spaces ws /\ s = TrimRightSpace s ++ ws.
Proof.
  unfold TrimRightSpace.
  destruct (TrimLeftSpace_split (rev s)) as (ws & Hws & E).
  exists (rev ws). split; [now apply spaces_rev|].
  rewrite <- rev_app_distr, <- E. now rewrite rev_involutive.
Qed.

Lemma Fields_TrimSpace s : Fields (TrimSpace s) = Fields s.
Proof.
  unfold Fields, TrimSpace.
  destruct (TrimLeftSpace_split s) as (ws & Hws & E).
  destruct (TrimRightSpace_split (TrimLeftSpace s)) as (ws' & Hws' & E').
  rewrite E at 2. rewrite fieldsFrom_spaces by assumption.
  rewrite E' at 2. now rewrite fieldsFrom_app_spaces.
Qed.

(** What the scan of [Fields] returns is what the specification calls
    the fields of the line. *)
Lemma splits_into_Fields line fs :
  splits_into line fs -> Fields line = fs.
Proof.
  unfold Fields.
  induction 1 as [ws Hws | ws f Hws [Hne Hf] | ws f r rest fs Hws [Hne Hf] Hr _ IH].
  - rewrite <- (app_nil_r ws). now rewrite fieldsFrom_spaces.
  - rewrite fieldsFrom_spaces by assumption.
    rewrite <- (app_nil_r f), fieldsFrom_word by assumption.
    rewrite !app_nil_r. simpl.
    destruct (rev f) eqn:E; [|now rewrite <- E, rev_involutive].
    apply (f_equal (@rev _)) in E. rewrite rev_involutive in E. contradiction.
  - rewrite fieldsFrom_spaces by assumption.
    rewrite fieldsFrom_word by assumption.
    rewrite app_nil_r. simpl. rewrite Hr, IH.
    destruct (rev f) eqn:E; [|now rewrite <- E, rev_involutive].
    apply (f_equal (@rev _)) in E. rewrite rev_involutive in E. contradiction.
Qed.

Lemma splits_into_cons_space r line fs :
  unicode.IsSpace r = true -> splits_into line fs -> splits_into (r :: line) fs.
Proof.
  intros Hr H. inversion H; subst.
  - apply splits_blank. now constructor.
  - apply (splits_last (r :: ws)); [now constructor | assumption].
  - apply (splits_more (r :: ws)); try assumption. now constructor.
Qed.

Lemma field_rev_cons c cur :
  Forall (fun r => unicode.IsSpace r = false) (c :: cur) ->
  field (rev (c :: cur)).
Proof.
  intros H. split; [|now apply Forall_rev].
  simpl. intros E. now apply app_eq_nil in E as [_ E].
Qed.

(** The scan started inside a field [cur]. *)
Lemma fieldsFrom_splits s : forall cur,
  Forall (fun r => unicode.IsSpace r = false) cur ->
  match cur with
  | [] => splits_into s (fieldsFrom [] s)
  | _ :: _ => splits_into (rev cur ++ s) (fieldsFrom cur s)
  end.
Proof.
  induction s as [|r s IH]; intros cur Hcur.
  - destruct cur as [|c cur]; simpl fieldsFrom.
    + apply splits_blank. constructor.
    + rewrite app_nil_r. apply (splits_last []); [constructor|].
      now apply field_rev_cons.
  - simpl fieldsFrom. destruct (unicode.IsSpace r) eqn:Hr.
    + destruct cur as [|c cur].
      * apply splits_into_cons_space; [assumption|]. exact (IH [] (Forall_nil _)).
      * apply (splits_more [] (rev (c :: cur)) r s); [constructor| |assumption|].
        -- now apply field_rev_cons.
        -- exact (IH [] (Forall_nil _)).
    + specialize (IH (r :: cur) (Forall_cons _ Hr Hcur)). simpl in IH.
      destruct cur as [|c cur]; [exact IH|].
      simpl. simpl in IH.
      now rewrite <- (app_assoc _ [r] s) in IH.
Qed.

(** Every line splits into the fields [Fields] returns, and into no others. *)
Lemma Fields_splits line : splits_into line (Fields line).
Proof. exact (fieldsFrom_splits line [] (Forall_nil _)). Qed.

End Fields.

(** ** The loop over the lines *)

Section ParseLines.
Import SystemdMonitorService.

Lemma parseLine_short (services : list SystemdUnit) (line : gostring) :
  List.length (strings.Fields line) < 4 ->
  parseLine services line = services.
Proof.
  intros Hlen. unfold parseLine. rewrite Fields_TrimSpace.
  destruct (isEmpty (strings.TrimSpace line)); [reflexivity|].
  destruct (Nat.ltb_spec (List.length (strings.Fields line)) 5) as [_|H]; [|lia].
  destruct (Nat.leb_spec 4 (List.length (strings.Fields line))) as [H|_]; [lia|].
  reflexivity.
Qed.

Lemma parseLine_record (services : list SystemdUnit) (line : gostring) :
  4 <= List.length (strings.Fields line) ->
  parseLine services line = services ++ [unitOf (strings.Fields line)].
Proof.
  intros Hlen. unfold parseLine. rewrite Fields_TrimSpace.
  destruct (isEmpty (strings.TrimSpace line)) eqn:Hblank.
  - apply isEmpty_true in Hblank.
    rewrite <- Fields_TrimSpace, Hblank in Hlen. simpl in Hlen. lia.
  - destruct (Nat.ltb_spec (List.length (strings.Fields line)) 5) as [_|_];
      [|reflexivity].
    destruct (Nat.leb_spec 4 (List.length (strings.Fields line))) as [_|H];
      [reflexivity | lia].
Qed.

End ParseLines.

(** The two lines of the end-to-end scenario. *)
Example parseOutput_scenario :
  SystemdMonitorService.parseOutput systemctlOutput
  = [ {| Unit := str "sshd.service"; Load := str "loaded";
         Active := str "active"; Sub := str "running";
         Description := str "OpenSSH server" |};
      {| Unit := str "cron.service"; Load := str "loaded";
         Active := str "active"; Sub := str "running";
         Description := [] |} ].
Proof. vm_compute. reflexivity. Qed.

(** ** registerHost *)

Section Registration.
Import HostRegistrationService.
Variable w : World.
Variables hostname ipAddress osVersion : gostring.

(** The creation path, whatever the answer of the inventory service. *)
Lemma registerHost_create_run (s : t) (c : ClientWithResponses) :
  client s = Some c ->
  let reqBody := createRequest w hostname ipAddress osVersion in
  exists tr err s',
    registerHost_create w hostname ipAddress osVersion s = (tr, Returned (err, s'))
    /\ lookupCalls tr = []
    /\ createCalls tr = [reqBody]
    /\ (forall host, createdWith (PostApiV1Hosts (api w) reqBody) host ->
          err = None
          /\ s' = set_config (setConfigHostRid (config s) (Host_HostRid host))
                    (set_hostRid (Host_HostRid host) s)
          /\ saveCalls tr = [(config s', configPath)])
    /\ ((forall host, ~ createdWith (PostApiV1Hosts (api w) reqBody) host) ->
          err <> None /\ s' = s /\ saveCalls tr = []).
Proof.
  intros Hc reqBody. unfold registerHost_create, createdWith.
  fold (createRequest w hostname ipAddress osVersion). fold reqBody.
  cbn. rewrite Hc. cbn.
  destruct (PostApiV1Hosts (api w) reqBody) as [resp|e] eqn:Hpost; cbn.
  - destruct (Create_StatusCode resp =? StatusCreated)%Z eqn:Hst; cbn.
    + apply Z.eqb_eq in Hst.
      destruct (JSON201 resp) as [host|] eqn:Hbody; cbn.
      * destruct (config_SaveConfig w _ _); cbn;
          (do 3 eexists; split; [reflexivity|]; cbn;
           split; [reflexivity|]; split; [reflexivity|]; split;
           [ intros host' (resp' & E & _ & Hb); injection E as <-;
             rewrite Hbody in Hb; injection Hb as <-; auto
           | intros Hno; exfalso; apply (Hno host); eauto ]).
      * do 3 eexists; split; [reflexivity|]; cbn;
          split; [reflexivity|]; split; [reflexivity|]; split;
          [ intros host' (resp' & E & _ & Hb); injection E as <-; congruence
          | intros _; repeat split; discriminate ].
    + apply Z.eqb_neq in Hst.
      do 3 eexists; split; [reflexivity|]; cbn;
        split; [reflexivity|]; split; [reflexivity|]; split;
        [ intros host' (resp' & E & Hs & _); injection E as <-; congruence
        | intros _; repeat split; discriminate ].
  - do 3 eexists; split; [reflexivity|]; cbn;
      split; [reflexivity|]; split; [reflexivity|]; split;
      [ intros host' (resp' & E & _); discriminate
      | intros _; repeat split; discriminate ].
Qed.

(** The reuse path: the lookup answers 200 with a body. *)
Lemma registerHost_reuse_run (s : t) (c : ClientWithResponses) (resp : GetHostResponse) :
  client s = Some c ->
  HostRid (HostRegistration (config s)) <> [] ->
  GetApiV1HostsHostRid (api w) (HostRid (HostRegistration (config s))) = Ok resp ->
  hostExists resp = true ->
  exists tr,
    registerHost w hostname ipAddress osVersion s
    = (tr, Returned (None, set_hostRid (HostRid (HostRegistration (config s))) s))
    /\ lookupCalls tr = [HostRid (HostRegistration (config s))]
    /\ createCalls tr = []
    /\ saveCalls tr = [].
Proof.
  intros Hc Hrid Hget Hex. apply isEmpty_false in Hrid.
  unfold registerHost. cbn -[registerHost_create].
  rewrite Hrid. cbn -[registerHost_create].
  rewrite Hc. cbn -[registerHost_create].
  rewrite Hget. cbn -[registerHost_create].
  unfold hostExists in Hex. rewrite Hex. cbn.
  eexists. split; [reflexivity|]. cbn. auto.
Qed.

(** Every resolution goes through the client first: with a nil client it
    panics, so a service whose [Start] came back registered has a client. *)
Lemma registerHost_nil_client (s : t) :
  client s = None ->
  exists tr,
    registerHost w hostname ipAddress osVersion s = (tr, Panicked nilDereference).
Proof.
  intros Hc. unfold registerHost, registerHost_create. cbn.
  destruct (isEmpty (HostRid (HostRegistration (config s)))); cbn;
    rewrite Hc; cbn; eauto.
Qed.

(** C3, as the code has it. With no persisted RID, or with a lookup that
    answered something other than 200 with a body, one resolution makes
    exactly one create call. If the answer has status 201 and carries a
    parsed body, the resolution succeeds, the RID of that body, as it is
    (empty when the body lacks the identifier), is the RID of the service
    and of the configuration, and that configuration is handed to
    [SaveConfig]; with any other answer (a transport error, another status,
    no parsed body) the resolution returns an error, the service and its
    configuration are as before, and nothing is saved. *)
Theorem registerHost_creates_exactly_once (s : t) (c : ClientWithResponses) :
  client s = Some c ->
  (HostRid (HostRegistration (config s)) = []
   \/ exists resp,
        GetApiV1HostsHostRid (api w) (HostRid (HostRegistration (config s))) = Ok resp
        /\ hostExists resp = false) ->
  let reqBody := createRequest w hostname ipAddress osVersion in
  exists tr err s',
    registerHost w hostname ipAddress osVersion s = (tr, Returned (err, s'))
    /\ createCalls tr = [reqBody]
    /\ (forall host, createdWith (PostApiV1Hosts (api w) reqBody) host ->
          err = None
          /\ hostRid s' = Host_HostRid host
          /\ HostRid (HostRegistration (config s')) = Host_HostRid host
          /\ saveCalls tr = [(config s', configPath)])
    /\ ((forall host, ~ createdWith (PostApiV1Hosts (api w) reqBody) host) ->
          err <> None /\ s' = s /\ saveCalls tr = []).
Proof.
  intros Hc Hpre reqBody.
  destruct (registerHost_create_run s c Hc)
    as (tr & err & s' & Hrun & Hlook & Hcreate & Hyes & Hno).
  fold reqBody in Hcreate, Hyes, Hno.
  assert (Hyes' : forall host, createdWith (PostApiV1Hosts (api w) reqBody) host ->
            err = None
            /\ hostRid s' = Host_HostRid host
            /\ HostRid (HostRegistration (config s')) = Host_HostRid host
            /\ saveCalls tr = [(config s', configPath)]).
  { intros host Hh. destruct (Hyes host Hh) as (-> & -> & Hs). now repeat split. }
  unfold registerHost. cbn -[registerHost_create].
  destruct Hpre as [Hrid | (resp & Hget & Hnf)].
  - rewrite Hrid. cbn -[registerHost_create]. rewrite Hrun.
    eexists _, err, s'. split; [reflexivity|]. cbn.
    split; [assumption|]. split; [exact Hyes' | exact Hno].
  - destruct (isEmpty (HostRid (HostRegistration (config s)))) eqn:Hrid;
      cbn -[registerHost_create].
    + rewrite Hrun.
      eexists _, err, s'. split; [reflexivity|]. cbn.
      split; [assumption|]. split; [exact Hyes' | exact Hno].
    + rewrite Hc. cbn -[registerHost_create]. rewrite Hget.
      cbn -[registerHost_create].
      unfold hostExists in Hnf. rewrite Hnf. cbn -[registerHost_create].
      rewrite Hrun.
      eexists _, err, s'. split; [reflexivity|]. cbn.
      split; [assumption|]. split; [exact Hyes' | exact Hno].
Qed.

(** C8. With a persisted RID whose lookup call itself fails, the resolution
    returns the lookup failure after that one lookup call: no create call,
    the service (its RID, its configuration) unchanged, nothing saved. *)
Theorem registerHost_lookup_failed (s : t) (c : ClientWithResponses) (e : goerror) :
  client s = Some c ->
  HostRid (HostRegistration (config s)) <> [] ->
  GetApiV1HostsHostRid (api w) (HostRid (HostRegistration (config s))) = Err e ->
  exists tr,
    registerHost w hostname ipAddress osVersion s
    = (tr, Returned (Some (Wrap (str "failed to check host existence: ") e), s))
    /\ lookupCalls tr = [HostRid (HostRegistration (config s))]
    /\ createCalls tr = []
    /\ saveCalls tr = [].
Proof.
  intros Hc Hrid Hget. apply isEmpty_false in Hrid.
  unfold registerHost. cbn -[registerHost_create].
  rewrite Hrid. cbn -[registerHost_create].
  rewrite Hc. cbn -[registerHost_create].
  rewrite Hget. cbn.
  eexists. split; [reflexivity|]. cbn. auto.
Qed.

End Registration.

(** A run without a persisted RID: one create call, and [h1] taken over. *)
Lemma registerHost_creates_exactly_once_witness :
  exists tr s',
    HostRegistrationService.registerHost box1
      (str "box1") (str "10.0.0.5") (str "Unknown") (serviceOn cfgFresh)
    = (tr, Returned (None, s'))
    /\ List.length (createCalls tr) = 1
    /\ HostRegistrationService.hostRid s' = str "h1"
    /\ HostRid (HostRegistration (HostRegistrationService.config s')) = str "h1".
Proof.
  destruct (registerHost_creates_exactly_once box1
              (str "box1") (str "10.0.0.5") (str "Unknown") (serviceOn cfgFresh)
              {| Server := str "http://inventory:8080" |}
              eq_refl (or_introl eq_refl))
    as (tr & err & s' & Hrun & Hcreate & Hyes & _).
  destruct (Hyes h1) as (-> & Hrid & Hcfg & _).
  - exists {| Create_StatusCode := 201; JSON201 := Some h1 |}.
    repeat split; reflexivity.
  - exists tr, s'. rewrite Hcreate. repeat split; assumption.
Defined.

(** C3 as stated fails on an answer with status 201 whose body lacks the
    identifier: the resolution returns nil, not an error, the empty RID is
    taken over and saved, and [Start] goes on to start the heartbeat for
    it. *)
Lemma registerHost_accepts_body_without_RID :
  snd (HostRegistrationService.registerHost box1_noRID
         (str "box1") (str "10.0.0.5") (str "Unknown") (serviceOn cfgFresh))
  = Returned (None, serviceOn cfgFresh)
  /\ HostRegistrationService.hostRid (serviceOn cfgFresh) = []
  /\ createCalls
       (events (HostRegistrationService.registerHost box1_noRID
                  (str "box1") (str "10.0.0.5") (str "Unknown") (serviceOn cfgFresh)))
     = [createRequest box1_noRID (str "box1") (str "10.0.0.5") (str "Unknown")]
  /\ saveCalls
       (events (HostRegistrationService.registerHost box1_noRID
                  (str "box1") (str "10.0.0.5") (str "Unknown") (serviceOn cfgFresh)))
     = [(cfgFresh, configPath)]
  /\ heartbeatStarts
       (events (HostRegistrationService.Start box1_noRID (serviceOn cfgFresh)))
     = [[]].
Proof. repeat split; vm_compute; reflexivity. Qed.

(** A run whose lookup cannot reach the inventory service. *)
Lemma registerHost_lookup_failed_witness :
  exists tr,
    HostRegistrationService.registerHost box1_offline
      (str "box1") (str "10.0.0.5") (str "Unknown") (serviceOn cfgRegistered)
    = (tr, Returned (Some (Wrap (str "failed to check host existence: ")
                                connectionRefused),
                     serviceOn cfgRegistered))
    /\ lookupCalls tr = [str "h1"]
    /\ createCalls tr = []
    /\ saveCalls tr = [].
Proof.
  apply (registerHost_lookup_failed box1_offline
           (str "box1") (str "10.0.0.5") (str "Unknown") (serviceOn cfgRegistered)
           {| Server := str "http://inventory:8080" |} connectionRefused).
  - reflexivity.
  - vm_compute. discriminate.
  - reflexivity.
Defined.

Section Reuse.
Import HostRegistrationService.

(** C2. With a persisted RID whose lookup answers 200 with a body, the
    resolution succeeds with that RID as the RID of the service, makes no
    create call and saves nothing, and leaves the configuration as it was;
    a second resolution on that configuration (the same service again, or
    the service of a restarted process) ends with the same RID, again with
    no create call and nothing saved. *)
Theorem registerHost_reuses_persisted_RID
    (w : World) (s : t) (c : ClientWithResponses) (resp : GetHostResponse)
    (hostname ipAddress osVersion : gostring) :
  let rid := HostRid (HostRegistration (config s)) in
  client s = Some c ->
  rid <> [] ->
  GetApiV1HostsHostRid (api w) rid = Ok resp ->
  hostExists resp = true ->
  exists tr s1,
    registerHost w hostname ipAddress osVersion s = (tr, Returned (None, s1))
    /\ hostRid s1 = rid
    /\ config s1 = config s
    /\ createCalls tr = []
    /\ saveCalls tr = []
    /\ forall (restarted : t) (c' : ClientWithResponses)
              (hostname' ipAddress' osVersion' : gostring),
         config restarted = config s1 ->
         client restarted = Some c' ->
         exists tr' s2,
           registerHost w hostname' ipAddress' osVersion' restarted
           = (tr', Returned (None, s2))
           /\ hostRid s2 = rid
           /\ config s2 = config s
           /\ createCalls tr' = []
           /\ saveCalls tr' = [].
Proof.
  intros rid Hc Hrid Hget Hex.
  destruct (registerHost_reuse_run w hostname ipAddress osVersion s c resp Hc Hrid Hget Hex)
    as (tr & Hrun & _ & Hcr & Hsv).
  exists tr, (set_hostRid rid s). repeat split; auto.
  intros restarted c' hostname' ipAddress' osVersion' Hcfg Hc'.
  cbn in Hcfg.
  assert (Hrid' : HostRid (HostRegistration (config restarted)) <> [])
    by (rewrite Hcfg; exact Hrid).
  assert (Hget' : GetApiV1HostsHostRid (api w)
                    (HostRid (HostRegistration (config restarted))) = Ok resp)
    by (rewrite Hcfg; exact Hget).
  destruct (registerHost_reuse_run w hostname' ipAddress' osVersion' restarted c' resp
              Hc' Hrid' Hget' Hex)
    as (tr' & Hrun' & _ & Hcr' & Hsv').
  exists tr', (set_hostRid (HostRid (HostRegistration (config restarted))) restarted).
  repeat split; auto. cbn. unfold rid. now rewrite Hcfg.
Qed.

(** C10. With an empty registration URL, [Start] logs that registration is
    skipped and returns nil: that log line is its only event (no call to the
    inventory service, no [go] statement for the heartbeat) and the service,
    its RID included, is unchanged. *)
Theorem Start_without_URL (w : World) (s : t) :
  SprinterURL (HostRegistration (config s)) = [] ->
  Start w s = ([Log "Host registration not configured - skipping" []],
               Returned (None, s))
  /\ lookupCalls (events (Start w s)) = []
  /\ createCalls (events (Start w s)) = []
  /\ heartbeatStarts (events (Start w s)) = [].
Proof.
  intros H.
  assert (E : Start w s = ([Log "Host registration not configured - skipping" []],
                           Returned (None, s))).
  { unfold Start. cbn -[registerHost]. rewrite H. reflexivity. }
  rewrite E. repeat split.
Qed.

End Reuse.

(** Two resolutions in a row on the host that carries the RID [h1]. *)
Lemma registerHost_reuses_persisted_RID_witness :
  exists tr s1 tr' s2,
    HostRegistrationService.registerHost box1
      (str "box1") (str "10.0.0.5") (str "Unknown") (serviceOn cfgRegistered)
    = (tr, Returned (None, s1))
    /\ HostRegistrationService.registerHost box1
         (str "box1") (str "10.0.0.5") (str "Unknown")
         (serviceOn (HostRegistrationService.config s1))
       = (tr', Returned (None, s2))
    /\ HostRegistrationService.hostRid s1 = str "h1"
    /\ HostRegistrationService.hostRid s2 = str "h1"
    /\ createCalls (tr ++ tr') = [].
Proof.
  destruct (registerHost_reuses_persisted_RID box1 (serviceOn cfgRegistered)
              {| Server := str "http://inventory:8080" |}
              {| Get_StatusCode := 200; JSON200 := Some h1 |}
              (str "box1") (str "10.0.0.5") (str "Unknown"))
    as (tr & s1 & Hrun & Hrid & Hcfg & Hcreate & _ & Hagain).
  - reflexivity.
  - vm_compute. discriminate.
  - reflexivity.
  - reflexivity.
  - destruct (Hagain (serviceOn (HostRegistrationService.config s1))
                {| Server := str "http://inventory:8080" |}
                (str "box1") (str "10.0.0.5") (str "Unknown") eq_refl)
      as (tr' & s2 & Hrun' & Hrid' & _ & Hcreate' & _).
    + rewrite Hcfg. reflexivity.
    + exists tr, s1, tr', s2. repeat split; try assumption.
      unfold createCalls in *. now rewrite flat_map_app, Hcreate, Hcreate'.
Defined.

(** The service of an agent whose configuration names no inventory service. *)
Lemma Start_without_URL_witness :
  HostRegistrationService.Start box1 (serviceOn cfgUnconfigured)
  = ([Log "Host registration not configured - skipping" []],
     Returned (None, serviceOn cfgUnconfigured)).
Proof.
  exact (proj1 (Start_without_URL box1 (serviceOn cfgUnconfigured) eq_refl)).
Defined.

(** ** getLocalIP *)

Section LocalIP.
Import HostRegistrationService.

Lemma getLocalIP_scan_first (pre : list net.IP) (a : net.IP) (post : list net.IP) :
  Forall (fun addr => nonLoopbackIPv4 addr = false) pre ->
  nonLoopbackIPv4 a = true ->
  getLocalIP_scan (pre ++ a :: post) = net.String a.
Proof.
  induction 1 as [|x pre Hx _ IH]; intros Ha; simpl.
  - now rewrite Ha.
  - rewrite Hx. now apply IH.
Qed.

Lemma getLocalIP_scan_none (addrs : list net.IP) :
  Forall (fun addr => nonLoopbackIPv4 addr = false) addrs ->
  getLocalIP_scan addrs = str "127.0.0.1".
Proof.
  induction 1 as [|x pre Hx _ IH]; simpl; [reflexivity|].
  now rewrite Hx.
Qed.

Lemma getOSVersion_ok (w : World) : exists v, getOSVersion w = Ok v.
Proof.
  unfold getOSVersion.
  repeat match goal with
         | |- context [if ?b then _ else _] => destruct b
         | |- context [match ?x with _ => _ end] => destruct x
         end; eauto.
Qed.

Lemma registerHost_first_event (w : World)
    (hostname ipAddress osVersion : gostring) (s : t) :
  exists rest,
    events (registerHost w hostname ipAddress osVersion s)
    = Log "Attempting to register host: %s (%s) - %s"
          [AStr hostname; AStr ipAddress; AStr osVersion] :: rest.
Proof.
  unfold registerHost, logf. rewrite events_emit_then. eauto.
Qed.

(** With the name and its addresses at hand, [Start] goes on to
    [registerHost] with the address [getLocalIP] chose. *)
Lemma Start_registers_with_local_IP (w : World) (hostname : gostring)
    (addrs : list net.IP) (s : t) :
  os_Hostname w = Ok hostname ->
  net_LookupIP w hostname = Ok addrs ->
  SprinterURL (HostRegistration (config s)) <> [] ->
  exists osVersion rest,
    events (Start w s)
    = Log "Attempting to register host: %s (%s) - %s"
          [AStr hostname; AStr (getLocalIP_scan addrs); AStr osVersion] :: rest.
Proof.
  intros Hh Hl Hurl. apply isEmpty_false in Hurl.
  destruct (getOSVersion_ok w) as (v & Hv).
  exists v.
  destruct (registerHost_first_event w hostname (getLocalIP_scan addrs) v s)
    as (rest & Hfirst).
  unfold Start. cbn -[registerHost getOSVersion getLocalIP].
  rewrite Hurl, Hh. unfold getLocalIP. rewrite Hh, Hl, Hv.
  cbn -[registerHost getLocalIP_scan].
  unfold events in Hfirst.
  destruct (registerHost w hostname (getLocalIP_scan addrs) v s)
    as [tr [[r s']|reason]]; cbn in Hfirst; subst tr.
  - destruct r; cbn; eauto.
  - cbn. eauto.
Qed.

End LocalIP.

(** C9, as the code has it. When the host name is known and its address
    lookup succeeds, [getLocalIP] gives the first address that is a
    non-loopback IPv4 address, gives 127.0.0.1 when there is none, never
    fails, and [Start] goes on to register with that address. When
    [os.Hostname] or the address lookup itself fails, [getLocalIP] returns
    that error and [Start] returns it wrapped, without any event: no
    registration is attempted. *)
Theorem getLocalIP_contract (w : World) :
  (forall hostname addrs,
      os_Hostname w = Ok hostname ->
      net_LookupIP w hostname = Ok addrs ->
      (forall pre a post,
          addrs = pre ++ a :: post ->
          Forall (fun addr => HostRegistrationService.nonLoopbackIPv4 addr = false) pre ->
          HostRegistrationService.nonLoopbackIPv4 a = true ->
          HostRegistrationService.getLocalIP w = Ok (net.String a))
      /\ (Forall (fun addr => HostRegistrationService.nonLoopbackIPv4 addr = false) addrs ->
          HostRegistrationService.getLocalIP w = Ok (str "127.0.0.1"))
      /\ (forall s,
            SprinterURL (HostRegistration (HostRegistrationService.config s)) <> [] ->
            exists ip osVersion rest,
              HostRegistrationService.getLocalIP w = Ok ip
              /\ events (HostRegistrationService.Start w s)
                 = Log "Attempting to register host: %s (%s) - %s"
                       [AStr hostname; AStr ip; AStr osVersion] :: rest))
  /\ (forall e,
         (os_Hostname w = Err e
          \/ exists hostname,
               os_Hostname w = Ok hostname /\ net_LookupIP w hostname = Err e) ->
         HostRegistrationService.getLocalIP w = Err e
         /\ forall s,
              SprinterURL (HostRegistration (HostRegistrationService.config s)) <> [] ->
              exists prefix,
                HostRegistrationService.Start w s
                = ([], Returned (Some (Wrap prefix e), s))).
Proof.
  split.
  - intros hostname addrs Hh Hl.
    assert (E : HostRegistrationService.getLocalIP w
                = Ok (HostRegistrationService.getLocalIP_scan addrs))
      by (unfold HostRegistrationService.getLocalIP; now rewrite Hh, Hl).
    rewrite E. split; [|split].
    + intros pre a post -> Hpre Ha. now rewrite getLocalIP_scan_first.
    + intros Hnone. now rewrite getLocalIP_scan_none.
    + intros s Hurl.
      destruct (Start_registers_with_local_IP w hostname addrs s Hh Hl Hurl)
        as (v & rest & Hev).
      now exists (HostRegistrationService.getLocalIP_scan addrs), v, rest.
  - intros e H. split.
    + unfold HostRegistrationService.getLocalIP.
      destruct H as [-> | (h & -> & ->)]; reflexivity.
    + intros s Hurl. apply isEmpty_false in Hurl.
      unfold HostRegistrationService.Start.
      cbn -[HostRegistrationService.registerHost
            HostRegistrationService.getOSVersion
            HostRegistrationService.getLocalIP].
      rewrite Hurl. unfold HostRegistrationService.getLocalIP.
      destruct H as [-> | (h & -> & ->)]; cbn; eauto.
Qed.

(** On [box1] the loopback address is passed over and 10.0.0.5 is chosen. *)
Lemma getLocalIP_contract_witness :
  HostRegistrationService.getLocalIP box1 = Ok (str "10.0.0.5").
Proof.
  refine (proj1 (proj1 (getLocalIP_contract box1) (str "box1")
                   box1_addrs eq_refl eq_refl)
                [[127; 0; 0; 1]%N] [10; 0; 0; 5]%N [] eq_refl _ eq_refl).
  constructor; [reflexivity | constructor].
Defined.

(** C9 as stated fails where the host name does not resolve: [getLocalIP]
    does not fall back, it fails, and [Start] gives up before any
    registration call. *)
Lemma getLocalIP_failure_blocks_registration :
  HostRegistrationService.getLocalIP box1_noDNS = Err noSuchHost
  /\ HostRegistrationService.Start box1_noDNS (serviceOn cfgFresh)
     = ([], Returned (Some (Wrap (str "failed to get IP address: ") noSuchHost),
                      serviceOn cfgFresh)).
Proof. split; vm_compute; reflexivity. Qed.

(** ** The heartbeat loop *)

Section Heartbeat.
Import HostRegistrationService.

Lemma sendHeartbeat_run (w : World) (s : t) (c : ClientWithResponses) :
  client s = Some c ->
  exists tr r,
    sendHeartbeat w s = (tr, Returned (r, s))
    /\ heartbeatCalls tr = [hostRid s]
    /\ heartbeatFailureLogs tr = []
    /\ match r with Some err => [err] | None => [] end = beatFailure w (hostRid s).
Proof.
  intros Hc. unfold sendHeartbeat, beatFailure. cbn. rewrite Hc. cbn.
  destruct (PostApiV1HostsHostRidHeartbeat (api w) (hostRid s)) as [resp|e]; cbn.
  - destruct (StatusCode resp =? StatusOK)%Z; cbn;
      do 2 eexists; (split; [reflexivity|]); cbn; auto.
  - do 2 eexists; (split; [reflexivity|]); cbn; auto.
Qed.

End Heartbeat.

(** C6. Whatever the beats answer, the heartbeat loop sends one heartbeat
    for every tick that arrives before the stop channel does, logs the error
    of every beat that fails (transport error or a status other than 200),
    and leaves the service as it was; it has returned exactly when the stop
    channel is among the arrivals, and is still waiting in its [select]
    otherwise. *)
Theorem startHeartbeat_survives_failed_beats
    (arrivals : list selected) (s : HostRegistrationService.t)
    (c : ClientWithResponses) :
  HostRegistrationService.client s = Some c ->
  exists tr st,
    HostRegistrationService.startHeartbeat arrivals s = (tr, Returned (st, s))
    /\ heartbeatCalls tr
       = map (fun _ => HostRegistrationService.hostRid s) (ticksBeforeStop arrivals)
    /\ heartbeatFailureLogs tr
       = flat_map (fun w => beatFailure w (HostRegistrationService.hostRid s))
                  (ticksBeforeStop arrivals)
    /\ (st = Exited <-> In StopChan arrivals)
    /\ (st = Waiting <-> ~ In StopChan arrivals).
Proof.
  intros Hc.
  induction arrivals as [|[w|] later (tr & st & Hrun & Hcalls & Hlogs & Hex & Hwt)].
  - exists [], Waiting. cbn.
    split; [reflexivity|]. split; [reflexivity|]. split; [reflexivity|].
    split; split; try discriminate; tauto.
  - destruct (sendHeartbeat_run w s c Hc) as (tr1 & r & Hsend & Hc1 & Hl1 & Hr).
    cbn -[HostRegistrationService.sendHeartbeat]. rewrite Hsend.
    assert (Hst : (st = Exited <-> In StopChan (TickerC w :: later))
                  /\ (st = Waiting <-> ~ In StopChan (TickerC w :: later))).
    { split; split.
      - intros E. right. now apply Hex.
      - intros [E|E]; [discriminate | now apply Hex].
      - intros E [E'|E']; [discriminate | now apply Hwt in E].
      - intros E. apply Hwt. intros E'. apply E. now right. }
    destruct r as [err|]; cbn; rewrite Hrun;
      eexists _, st; (split; [reflexivity|]);
      try change (Log ?f ?a :: tr) with ([Log f a] ++ tr);
      rewrite !heartbeatCalls_app, !heartbeatFailureLogs_app;
      rewrite Hc1, Hl1, Hcalls, Hlogs, <- Hr; cbn in Hst |- *; destruct Hst; auto.
  - exists [], Exited. cbn.
    split; [reflexivity|]. split; [reflexivity|]. split; [reflexivity|].
    split; split.
    + intros _. now left.
    + reflexivity.
    + discriminate.
    + intros E. exfalso. apply E. now left.
Qed.

(** Three ticks, the first and the last with the inventory service out of
    reach: three heartbeats, two logged failures, the loop still waiting. *)
Lemma startHeartbeat_survives_failed_beats_witness :
  exists tr,
    HostRegistrationService.startHeartbeat
      [TickerC box1_offline; TickerC box1; TickerC box1_offline] registered
    = (tr, Returned (Waiting, registered))
    /\ heartbeatCalls tr = [str "h1"; str "h1"; str "h1"]
    /\ List.length (heartbeatFailureLogs tr) = 2.
Proof.
  destruct (startHeartbeat_survives_failed_beats
              [TickerC box1_offline; TickerC box1; TickerC box1_offline] registered
              {| Server := str "http://inventory:8080" |} eq_refl)
    as (tr & st & Hrun & Hcalls & Hlogs & _ & Hwait).
  assert (Hst : st = Waiting).
  { apply Hwait. intros [H|[H|[H|[]]]]; discriminate. }
  subst st. exists tr. rewrite Hcalls, Hlogs. repeat split. exact Hrun.
Defined.

(** ** Stop *)

(** C7, as the code has it. [Stop] has no guard against a second call. On a
    monitor with a host RID, and on a registration service with a
    registration URL, the first [Stop] closes the open stop channel and a
    second [Stop] panics on closing the closed channel; only on a monitor
    without host RID, and on a registration service without URL, [Stop]
    does nothing, however often it is called. *)
Theorem Stop_twice_panics_unless_unconfigured :
  (forall s : SystemdMonitorService.t,
      (SystemdMonitorService.hostRid s = [] ->
       twice SystemdMonitorService.Stop s = ([], Returned (tt, s)))
      /\ (SystemdMonitorService.hostRid s <> [] ->
          SystemdMonitorService.stopChan s = Open ->
          SystemdMonitorService.Stop s
          = ([Log "Systemd monitoring service stopped" []],
             Returned (tt, SystemdMonitorService.set_stopChan Closed s))
          /\ twice SystemdMonitorService.Stop s
             = ([Log "Systemd monitoring service stopped" []],
                Panicked "close of closed channel")))
  /\ (forall s : HostRegistrationService.t,
      (SprinterURL (HostRegistration (HostRegistrationService.config s)) = [] ->
       twice HostRegistrationService.Stop s = ([], Returned (tt, s)))
      /\ (SprinterURL (HostRegistration (HostRegistrationService.config s)) <> [] ->
          HostRegistrationService.stopChan s = Open ->
          HostRegistrationService.Stop s
          = ([Log "Host registration stopped" []],
             Returned (tt, HostRegistrationService.set_stopChan Closed s))
          /\ twice HostRegistrationService.Stop s
             = ([Log "Host registration stopped" []],
                Panicked "close of closed channel"))).
Proof.
  split; intros s; split.
  - intros H. unfold twice, SystemdMonitorService.Stop. cbn.
    rewrite H. cbn. rewrite H. reflexivity.
  - intros H Hopen. apply isEmpty_false in H.
    unfold twice, SystemdMonitorService.Stop. cbn. rewrite H, Hopen. cbn.
    rewrite H. cbn. split; reflexivity.
  - intros H. unfold twice, HostRegistrationService.Stop. cbn.
    rewrite H. cbn. rewrite H. reflexivity.
  - intros H Hopen. apply isEmpty_false in H.
    unfold twice, HostRegistrationService.Stop. cbn. rewrite H, Hopen. cbn.
    rewrite H. cbn. split; reflexivity.
Qed.

(** The registration service of [box1], stopped twice; and a monitor that was
    given no host RID, stopped twice. *)
Lemma Stop_twice_panics_unless_unconfigured_witness :
  twice HostRegistrationService.Stop registered
  = ([Log "Host registration stopped" []], Panicked "close of closed channel")
  /\ twice SystemdMonitorService.Stop (monitorOf [])
     = ([], Returned (tt, monitorOf [])).
Proof.
  split.
  - refine (proj2 (proj2 (proj2 Stop_twice_panics_unless_unconfigured registered)
                     _ eq_refl)).
    vm_compute. discriminate.
  - exact (proj1 (proj1 Stop_twice_panics_unless_unconfigured (monitorOf [])) eq_refl).
Defined.

(** C7 as stated fails on the monitor started for the host [h1]: its second
    [Stop] panics. *)
Lemma Stop_twice_panics :
  twice SystemdMonitorService.Stop (monitorOf (str "h1"))
  = ([Log "Systemd monitoring service stopped" []],
     Panicked "close of closed channel").
Proof. vm_compute. reflexivity. Qed.

(** ** Collecting and reporting the units *)

Section Collector.
Import SystemdMonitorService.

(** [getSystemdServices] always returns, and calls nothing of the
    inventory service. *)
Lemma getSystemdServices_run (w : World) (s : t) :
  exists tr r,
    getSystemdServices w s = (tr, Returned (r, s))
    /\ putCalls tr = []
    /\ (exec_LookPath w (str "systemctl") <> None -> r = Ok [])
    /\ (exec_LookPath w (str "systemctl") = None ->
        RunErr (exec_Output w (str "systemctl") systemctlArgs) <> None ->
        exists e, r = Err e)
    /\ (exec_LookPath w (str "systemctl") = None ->
        RunErr (exec_Output w (str "systemctl") systemctlArgs) = None ->
        r = Ok (parseOutput (Stdout (exec_Output w (str "systemctl") systemctlArgs)))).
Proof.
  unfold getSystemdServices.
  destruct (exec_LookPath w (str "systemctl")) as [e|].
  - do 2 eexists. split; [reflexivity|]. cbn.
    repeat split; auto; discriminate.
  - destruct (RunErr (exec_Output w (str "systemctl") systemctlArgs)) as [err|].
    + destruct (errors.AsExitError err) as [[exitCode stderr]|].
      * do 2 eexists. split; [reflexivity|]. cbn.
        repeat split; eauto; congruence.
      * destruct (permissionDenied err);
          [|destruct (negb (isEmpty (strings.TrimSpace
               (StderrBuf (exec_Output w (str "systemctl") systemctlArgs)))))];
          (do 2 eexists; split; [reflexivity|]; cbn;
           repeat split; eauto; congruence).
    + do 2 eexists. split; [reflexivity|]. cbn.
      repeat split; auto; congruence.
Qed.

Lemma diagnose_run (w : World) (err : goerror) (s : t) :
  exists tr, diagnose w err s = (tr, Returned (tt, s)) /\ putCalls tr = [].
Proof.
  unfold diagnose.
  destruct (errors.AsExitError err) as [[exitCode stderr]|];
    [destruct (exitCode =? 1)%Z; [destruct (negb (isEmpty stderr))|]|];
    destruct (permissionDenied err);
    (eexists; split; [reflexivity|]; reflexivity).
Qed.

(** The report that follows a collection, whatever was collected. *)
Lemma report_after (w : World) (s : t) (c : ClientWithResponses)
    (services : list SystemdUnit) :
  client s = Some c ->
  let reqBody := {| Services := services |} in
  exists tr,
    (s0 <- get ;;
     resp <- viaClient (client s0) (CallPutSystemdServices (hostRid s0) reqBody)
               (PutApiV1HostsHostRidSystemdServices (api w) (hostRid s0) reqBody) ;;
     match resp with
     | Err err => logf "Failed to report systemd services: %v" [AErr err]
     | Ok resp =>
         if negb (StatusCode resp =? StatusOK)%Z
         then logf "Failed to report systemd services: status %d" [AInt (StatusCode resp)]
         else logf "Reported %d systemd services successfully"
                   [AInt (Z.of_nat (List.length services))]
     end) s = (tr, Returned (tt, s))
    /\ putCalls tr = [(hostRid s, reqBody)].
Proof.
  intros Hc reqBody. cbn. rewrite Hc. cbn.
  destruct (PutApiV1HostsHostRidSystemdServices (api w) (hostRid s) reqBody)
    as [resp|e]; cbn.
  - destruct (StatusCode resp =? StatusOK)%Z; cbn; eexists; split; reflexivity.
  - eexists; split; reflexivity.
Qed.

End Collector.

(** C5. When [systemctl] is not on the path, [getSystemdServices] returns
    the empty list and no error. When it is not on the path, or when its run
    ends in an error (a non-zero exit among them, which
    [getSystemdServices] hands to [reportSystemdServices] as an error value),
    [reportSystemdServices] still returns normally, the service unchanged,
    after exactly one report call, whose body carries the empty list. *)
Theorem reportSystemdServices_reports_empty_on_failure
    (w : World) (s : SystemdMonitorService.t) (c : ClientWithResponses) :
  SystemdMonitorService.client s = Some c ->
  (exec_LookPath w (str "systemctl") <> None
   \/ RunErr (exec_Output w (str "systemctl") SystemdMonitorService.systemctlArgs)
      <> None) ->
  (exec_LookPath w (str "systemctl") <> None ->
   SystemdMonitorService.getSystemdServices w s
   = ([Log "systemctl not found - returning empty list" []], Returned (Ok [], s)))
  /\ exists tr,
       SystemdMonitorService.reportSystemdServices w s = (tr, Returned (tt, s))
       /\ putCalls tr = [(SystemdMonitorService.hostRid s, {| Services := [] |})].
Proof.
  intros Hc Hfail. split.
  - intros Hlp. unfold SystemdMonitorService.getSystemdServices.
    destruct (exec_LookPath w (str "systemctl")); [reflexivity | contradiction].
  - destruct (getSystemdServices_run w s)
      as (tr1 & r & Hrun & Hp1 & Habsent & Hexit & _).
    destruct (report_after w s c [] Hc) as (tr3 & Hrep & Hp3).
    assert (Hr : r = Ok [] \/ exists e, r = Err e).
    { destruct (exec_LookPath w (str "systemctl")) as [e|] eqn:Hlp.
      - left. apply Habsent. discriminate.
      - right. apply Hexit; [reflexivity|].
        destruct Hfail as [H|H]; [contradiction | exact H]. }
    unfold SystemdMonitorService.reportSystemdServices.
    erewrite bind_returned by exact Hrun.
    destruct Hr as [-> | (e & ->)].
    + erewrite (bind_returned (ret [])) by reflexivity.
      rewrite Hrep. cbn. eexists. split; [reflexivity|].
      now rewrite putCalls_app, Hp1, Hp3.
    + destruct (diagnose_run w e s) as (tr2 & Hdiag & Hp2).
      erewrite (bind_returned (SystemdMonitorService.diagnose w e ;; ret [])).
      2:{ erewrite bind_returned by exact Hdiag. cbn. reflexivity. }
      rewrite Hrep. cbn. eexists. split; [reflexivity|].
      rewrite !putCalls_app, Hp1, Hp2, Hp3. reflexivity.
Qed.

(** A host without [systemctl]: the report goes out, with no unit in it. *)
Lemma reportSystemdServices_reports_empty_on_failure_witness :
  exists tr,
    SystemdMonitorService.reportSystemdServices box1_noSystemctl (monitorOf (str "h1"))
    = (tr, Returned (tt, monitorOf (str "h1")))
    /\ putCalls tr = [(str "h1", {| Services := [] |})].
Proof.
  refine (proj2 (reportSystemdServices_reports_empty_on_failure
                   box1_noSystemctl (monitorOf (str "h1"))
                   {| Server := str "http://inventory:8080" |} eq_refl _)).
  left. discriminate.
Defined.

(** A host on which [systemctl] exits with status 1: the same report. *)
Example reportSystemdServices_denied :
  putCalls (events (SystemdMonitorService.reportSystemdServices
                      box1_denied (monitorOf (str "h1"))))
  = [(str "h1", {| Services := [] |})].
Proof. vm_compute. reflexivity. Qed.

(** ** The watcher of main *)

Section Watcher.
Import main.

Lemma startMonitor_run (svc : HostRegistrationService.t) (rid : gostring)
    (once : bool) :
  rid <> [] ->
  exists tr,
    startMonitor svc rid once = (tr, Returned (tt, once))
    /\ monitorStarts tr
       = match HostRegistrationService.GetClient svc with
         | Some _ => [rid]
         | None => []
         end.
Proof.
  intros Hrid. destruct rid as [|r rid]; [contradiction|].
  unfold startMonitor. destruct (HostRegistrationService.GetClient svc) as [c|].
  - cbn. eexists. split; reflexivity.
  - eexists. split; reflexivity.
Qed.

(** The watcher never panics; it starts no monitor, or the one monitor for
    the first non-empty host RID it finds. *)
Lemma watcher_run (polls : list HostRegistrationService.t) (once : bool) :
  exists tr st once',
    watcher polls once = (tr, Returned (st, once'))
    /\ (monitorStarts tr = []
        \/ exists pre svc post c,
             polls = pre ++ svc :: post
             /\ Forall (fun p => HostRegistrationService.GetHostRid p = []) pre
             /\ HostRegistrationService.GetHostRid svc <> []
             /\ HostRegistrationService.GetClient svc = Some c
             /\ once = false
             /\ monitorStarts tr = [HostRegistrationService.GetHostRid svc])
    /\ (forall pre svc post c,
           polls = pre ++ svc :: post ->
           Forall (fun p => HostRegistrationService.GetHostRid p = []) pre ->
           HostRegistrationService.GetHostRid svc <> [] ->
           HostRegistrationService.GetClient svc = Some c ->
           once = false ->
           monitorStarts tr = [HostRegistrationService.GetHostRid svc]
           /\ st = Exited /\ once' = true).
Proof.
  induction polls as [|svc later (tr & st & once' & Hrun & Hstarts & Hfirst)].
  - exists [], Waiting, once. split; [reflexivity|]. split; [now left|].
    intros [|] ? ? ? E; discriminate.
  - cbn -[startMonitor].
    destruct (isEmpty (HostRegistrationService.GetHostRid svc)) eqn:Hrid;
      cbn -[startMonitor].
    + apply isEmpty_true in Hrid. rewrite Hrun.
      exists tr, st, once'. split; [reflexivity|]. split.
      * destruct Hstarts as [H | (pre & svc' & post & c & -> & Hpre & Hne & Hc & Ho & Hm)];
          [now left | right].
        exists (svc :: pre), svc', post, c. repeat split; auto.
      * intros [|p pre] svc' post c E Hpre Hne Hc Ho; injection E as -> E.
        -- contradiction.
        -- subst later. inversion Hpre; subst. eapply Hfirst; eauto.
    + apply isEmpty_false in Hrid.
      destruct (startMonitor_run svc (HostRegistrationService.GetHostRid svc) once Hrid)
        as (tr1 & Hsm & Hms).
      destruct once; cbn -[startMonitor].
      * exists [], Exited, true. split; [reflexivity|]. split; [now left|].
        intros; discriminate.
      * rewrite Hsm. cbn. eexists _, Exited, true.
        split; [reflexivity|]. rewrite !app_nil_r, Hms. split.
        -- destruct (HostRegistrationService.GetClient svc) as [c|] eqn:Hc;
             [right | now left].
           exists [], svc, later, c. repeat split; auto.
        -- intros [|p pre] svc' post c E Hpre Hne Hc Ho; injection E as -> E.
           ++ rewrite Hc. auto.
           ++ inversion Hpre; subst. contradiction.
Qed.

End Watcher.

(** C1. Whatever the watcher of [main] finds at its polls, and whatever the
    state of its [sync.Once], it runs to its end or to its next sleep
    without panic and executes the [go] statement of the monitor at most
    once; a monitor it starts carries a non-empty host RID, the one the
    registration service held at the poll that started it. Started with a
    fresh [sync.Once], it starts the monitor exactly once, at the first poll
    that finds a non-empty RID (and a client), however many later polls
    would find one too. The same bounds hold in every run of [main]. *)
Theorem monitor_started_at_most_once_with_identity :
  (forall (polls : list HostRegistrationService.t) (once : bool),
      exists tr st once',
        main.watcher polls once = (tr, Returned (st, once'))
        /\ List.length (monitorStarts tr) <= 1
        /\ (forall rid, In rid (monitorStarts tr) ->
              rid <> []
              /\ exists svc,
                   In svc polls /\ HostRegistrationService.GetHostRid svc = rid)
        /\ (forall pre svc post c,
              polls = pre ++ svc :: post ->
              Forall (fun p => HostRegistrationService.GetHostRid p = []) pre ->
              HostRegistrationService.GetHostRid svc <> [] ->
              HostRegistrationService.GetClient svc = Some c ->
              once = false ->
              monitorStarts tr = [HostRegistrationService.GetHostRid svc]))
  /\ (forall (w : World) (path : gostring) (n : nat),
        List.length (monitorStarts (main.main_watcher w path n)) <= 1
        /\ forall rid, In rid (monitorStarts (main.main_watcher w path n)) -> rid <> []).
Proof.
  assert (G : forall (polls : list HostRegistrationService.t) (once : bool),
      exists tr st once',
        main.watcher polls once = (tr, Returned (st, once'))
        /\ List.length (monitorStarts tr) <= 1
        /\ (forall rid, In rid (monitorStarts tr) ->
              rid <> []
              /\ exists svc,
                   In svc polls /\ HostRegistrationService.GetHostRid svc = rid)
        /\ (forall pre svc post c,
              polls = pre ++ svc :: post ->
              Forall (fun p => HostRegistrationService.GetHostRid p = []) pre ->
              HostRegistrationService.GetHostRid svc <> [] ->
              HostRegistrationService.GetClient svc = Some c ->
              once = false ->
              monitorStarts tr = [HostRegistrationService.GetHostRid svc])).
  { intros polls once.
    destruct (watcher_run polls once) as (tr & st & once' & Hrun & Hstarts & Hfirst).
    exists tr, st, once'. split; [exact Hrun|].
    destruct Hstarts as [H | (pre & svc & post & c & -> & Hpre & Hne & Hc & Ho & Hm)].
    - split; [rewrite H; simpl; lia|]. split.
      + rewrite H. intros rid [].
      + intros pre svc post c E Hpre Hne Hc Ho.
        now destruct (Hfirst pre svc post c E Hpre Hne Hc Ho).
    - split; [rewrite Hm; simpl; lia|]. split.
      + rewrite Hm. intros rid [<-|[]]. split; [exact Hne|].
        exists svc. split; [|reflexivity].
        apply in_or_app. right. now left.
      + intros pre' svc' post' c' E Hpre' Hne' Hc' Ho'.
        now destruct (Hfirst pre' svc' post' c' E Hpre' Hne' Hc' Ho'). }
  split; [exact G|].
  intros w path n. unfold main.main_watcher.
  destruct (main.main_setup w path) as [tr0 [[svc|]|reason]]; simpl;
    try (split; [lia | contradiction]).
  destruct (G (repeat svc n) false) as (tr & st & once' & Hrun & Hle & Hin & _).
  rewrite Hrun. unfold events. simpl. split; [exact Hle|].
  intros rid Hr. now apply Hin.
Qed.

(** Three polls: the RID still empty, then [h1] twice. One monitor, for [h1]. *)
Lemma monitor_started_at_most_once_with_identity_witness :
  exists tr st once',
    main.watcher [serviceOn cfgFresh; registered; registered] false
    = (tr, Returned (st, once'))
    /\ monitorStarts tr = [str "h1"].
Proof.
  destruct (proj1 monitor_started_at_most_once_with_identity
              [serviceOn cfgFresh; registered; registered] false)
    as (tr & st & once' & Hrun & _ & _ & Hfirst).
  exists tr, st, once'. split; [exact Hrun|].
  apply (Hfirst [serviceOn cfgFresh] registered [registered]
           {| Server := str "http://inventory:8080" |}); try reflexivity.
  - constructor; [reflexivity | constructor].
  - vm_compute. discriminate.
Defined.

(** A run of [main] on [box1]: the host is registered as [h1] and the
    watcher starts the monitor for [h1] at its first poll. *)
Example main_on_box1 :
  monitorStarts (main.main_watcher box1 configPath 3) = [str "h1"].
Proof. vm_compute. reflexivity. Qed.

(** * Further properties of the code *)

(** ** More on the parser *)

Lemma splits_into_fields (line : gostring) (fs : list gostring) :
  splits_into line fs -> Forall field fs.
Proof.
  induction 1; constructor; auto.
Qed.

Lemma Fields_fields (line : gostring) : Forall field (strings.Fields line).
Proof. exact (splits_into_fields _ _ (Fields_splits line)). Qed.

Lemma isSpace_SP : unicode.IsSpace 32%N = true.
Proof. reflexivity. Qed.

Lemma splits_into_Join (fs : list gostring) :
  Forall field fs -> splits_into (strings.Join fs SP) fs.
Proof.
  induction fs as [|f [|g rest] IH]; intros Hfs.
  - apply splits_blank. constructor.
  - inversion Hfs; subst. apply (splits_last [] f); [constructor | assumption].
  - inversion Hfs as [|? ? Hf Hrest]; subst.
    change (strings.Join (f :: g :: rest) SP)
      with ([] ++ f ++ 32%N :: strings.Join (g :: rest) SP).
    apply splits_more; auto. constructor.
Qed.

Lemma Fields_Join (fs : list gostring) :
  Forall field fs -> strings.Fields (strings.Join fs SP) = fs.
Proof. intros H. apply splits_into_Fields. now apply splits_into_Join. Qed.

Section ParseMore.
Import SystemdMonitorService.

Lemma parseLine_app (services : list SystemdUnit) (line : gostring) :
  parseLine services line = services ++ parseLine [] line.
Proof.
  unfold parseLine.
  destruct (isEmpty (strings.TrimSpace line)); [now rewrite app_nil_r|].
  destruct (List.length (strings.Fields (strings.TrimSpace line)) <? 5)%nat;
    [destruct (4 <=? List.length (strings.Fields (strings.TrimSpace line)))%nat|];
    simpl; now rewrite ?app_nil_r.
Qed.

Lemma fold_parseLine (lines : list gostring) : forall services,
  fold_left parseLine lines services = services ++ flat_map (parseLine []) lines.
Proof.
  induction lines as [|line lines IH]; intros services; simpl.
  - now rewrite app_nil_r.
  - rewrite IH, parseLine_app. now rewrite <- app_assoc.
Qed.

Lemma parseLines_flat_map (lines : list gostring) :
  parseLines lines = flat_map (parseLine []) lines.
Proof. unfold parseLines. now rewrite fold_parseLine. Qed.

Lemma parseLine_zero_or_one (line : gostring) :
  parseLine [] line = []
  \/ (4 <= List.length (strings.Fields line)
      /\ parseLine [] line = [unitOf (strings.Fields line)]).
Proof.
  destruct (Nat.lt_ge_cases (List.length (strings.Fields line)) 4) as [H|H].
  - left. now apply parseLine_short.
  - right. split; [exact H|]. now rewrite parseLine_record.
Qed.

Lemma unitOf_wellFormed (fs : list gostring) :
  Forall field fs -> 4 <= List.length fs -> wellFormedUnit (unitOf fs).
Proof.
  intros Hfs Hlen.
  destruct fs as [|u [|l [|a [|s rest]]]]; simpl in Hlen; try lia.
  inversion Hfs as [|? ? Hu H1]; subst. inversion H1 as [|? ? Hl H2]; subst.
  inversion H2 as [|? ? Ha H3]; subst. inversion H3 as [|? ? Hs Hrest]; subst.
  unfold wellFormedUnit, unitOf, index. cbn [Unit Load Active Sub Description nth skipn].
  repeat split; try (apply Hu || apply Hl || apply Ha || apply Hs).
  now rewrite Fields_Join.
Qed.

End ParseMore.

(** C4. A line that splits on runs of white space into five or more fields
    adds exactly one record, at its place among the records of the scan:
    the records of the lines before it, then the record made of the first
    four fields in order and of the remaining fields joined by single
    spaces, then the records of the lines after it. A line of exactly four
    fields does the same with the empty string as description. A line of
    fewer than four fields (a blank line has none) adds no record, and the
    records of the other lines are what they are without it. The same is
    said of one turn of the loop, whatever it has collected so far, and the
    scan in question is the one whose result [getSystemdServices] returns
    when the command ran. *)
Theorem parseLine_by_field_count
    (services : list SystemdUnit) (before after : list gostring)
    (line : gostring) (fs : list gostring) :
  splits_into line fs ->
  (forall unit load active sub d rest,
      fs = unit :: load :: active :: sub :: d :: rest ->
      let record := {| Unit := unit; Load := load; Active := active; Sub := sub;
                       Description := strings.Join (d :: rest) SP |} in
      SystemdMonitorService.parseLine services line = services ++ [record]
      /\ SystemdMonitorService.parseLines (before ++ line :: after)
         = SystemdMonitorService.parseLines before ++ [record]
           ++ SystemdMonitorService.parseLines after)
  /\ (forall unit load active sub,
         fs = [unit; load; active; sub] ->
         let record := {| Unit := unit; Load := load; Active := active; Sub := sub;
                          Description := [] |} in
         SystemdMonitorService.parseLine services line = services ++ [record]
         /\ SystemdMonitorService.parseLines (before ++ line :: after)
            = SystemdMonitorService.parseLines before ++ [record]
              ++ SystemdMonitorService.parseLines after)
  /\ (List.length fs < 4 ->
      SystemdMonitorService.parseLine services line = services
      /\ SystemdMonitorService.parseLines (before ++ line :: after)
         = SystemdMonitorService.parseLines before
           ++ SystemdMonitorService.parseLines after
      /\ SystemdMonitorService.parseLines (before ++ line :: after)
         = SystemdMonitorService.parseLines (before ++ after))
  /\ (forall (w : World) (s : SystemdMonitorService.t),
         let run := exec_Output w (str "systemctl") SystemdMonitorService.systemctlArgs in
         exec_LookPath w (str "systemctl") = None ->
         RunErr run = None ->
         strings.Split (strings.TrimSpace (Stdout run)) LF = before ++ line :: after ->
         SystemdMonitorService.getSystemdServices w s
         = ([], Returned (Ok (SystemdMonitorService.parseLines (before ++ line :: after)), s))).
Proof.
  intros Hsplit. apply splits_into_Fields in Hsplit. subst fs.
  assert (Hscan : forall here,
             SystemdMonitorService.parseLine [] line = here ->
             SystemdMonitorService.parseLines (before ++ line :: after)
             = SystemdMonitorService.parseLines before ++ here
               ++ SystemdMonitorService.parseLines after).
  { intros here <-. rewrite !parseLines_flat_map, flat_map_app. reflexivity. }
  split; [|split; [|split]].
  - intros unit load active sub d rest E record.
    assert (Hrec : SystemdMonitorService.unitOf (strings.Fields line) = record)
      by now rewrite E.
    split.
    + rewrite parseLine_record by (rewrite E; simpl; lia). now rewrite Hrec.
    + apply Hscan. rewrite parseLine_record by (rewrite E; simpl; lia).
      now rewrite Hrec.
  - intros unit load active sub E record.
    assert (Hrec : SystemdMonitorService.unitOf (strings.Fields line) = record)
      by now rewrite E.
    split.
    + rewrite parseLine_record by (rewrite E; simpl; lia). now rewrite Hrec.
    + apply Hscan. rewrite parseLine_record by (rewrite E; simpl; lia).
      now rewrite Hrec.
  - intros Hlen. split; [now apply parseLine_short|].
    assert (Hnone : SystemdMonitorService.parseLines (before ++ line :: after)
                    = SystemdMonitorService.parseLines before
                      ++ SystemdMonitorService.parseLines after)
      by (rewrite (Hscan [] (parseLine_short [] line Hlen)); reflexivity).
    split; [exact Hnone|].
    rewrite Hnone, !parseLines_flat_map, flat_map_app. reflexivity.
  - intros w s run Hlp Hre Hlines.
    unfold SystemdMonitorService.getSystemdServices. rewrite Hlp. fold run.
    rewrite Hre. unfold SystemdMonitorService.parseOutput. now rewrite Hlines.
Qed.

(** A scan of three lines: one of three fields, which is no unit, the first line of the
    end-to-end scenario with wider gaps, and its second line. *)
Lemma parseLine_by_field_count_witness :
  SystemdMonitorService.parseLines
    ([str "no units listed"]
     ++ str "sshd.service  loaded active   running OpenSSH   server"
     :: [str "cron.service loaded active running"])
  = [sshd; cron].
Proof.
  rewrite (proj2 (proj1 (parseLine_by_field_count []
                           [str "no units listed"]
                           [str "cron.service loaded active running"]
                           (str "sshd.service  loaded active   running OpenSSH   server")
                           _ (Fields_splits _))
                        _ _ _ _ _ _ eq_refl)).
  vm_compute. reflexivity.
Defined.

(** X1. The records of a scan come in the order of the lines, each line giving
    none or one whatever the other lines are: the scan of two runs of lines
    is the scan of the first followed by the scan of the second, and there
    are never more records than lines. *)
Theorem parseLines_line_by_line (before after : list gostring) :
  SystemdMonitorService.parseLines (before ++ after)
  = SystemdMonitorService.parseLines before ++ SystemdMonitorService.parseLines after
  /\ List.length (SystemdMonitorService.parseLines before) <= List.length before.
Proof.
  split.
  - rewrite !parseLines_flat_map. apply flat_map_app.
  - rewrite parseLines_flat_map.
    induction before as [|line lines IH]; simpl; [lia|].
    rewrite length_app.
    destruct (parseLine_zero_or_one line) as [-> | [_ ->]]; simpl; lia.
Qed.

(** X2. Whatever the command printed, every record of the parse has four
    non-empty fields free of white space, and a description made of the
    remaining fields with single spaces between them: no white space at its
    ends, no run of it inside. *)
Theorem parseOutput_wellFormed (output : gostring) (u : SystemdUnit) :
  In u (SystemdMonitorService.parseOutput output) -> wellFormedUnit u.
Proof.
  unfold SystemdMonitorService.parseOutput. rewrite parseLines_flat_map.
  intros Hin. apply in_flat_map in Hin as (line & _ & Hu).
  destruct (parseLine_zero_or_one line) as [E | [Hlen E]]; rewrite E in Hu.
  - contradiction.
  - destruct Hu as [<- | []]. apply unitOf_wellFormed; [apply Fields_fields | exact Hlen].
Qed.

(** ** Writing units and reading them back *)

Lemma Fields_field_then (f : gostring) (r : rune) (rest : gostring) :
  field f -> unicode.IsSpace r = true ->
  strings.Fields (f ++ r :: rest) = f :: strings.Fields rest.
Proof.
  intros [Hne Hf] Hr. unfold strings.Fields.
  rewrite fieldsFrom_word by assumption. rewrite app_nil_r. simpl. rewrite Hr.
  destruct (rev f) eqn:E; [|now rewrite <- E, rev_involutive].
  apply (f_equal (@rev _)) in E. rewrite rev_involutive in E. contradiction.
Qed.

(** A string that neither starts nor ends with white space. *)
Lemma TrimSpace_solid (s : gostring) (a z : rune) (m m' : gostring) :
  s = a :: m -> rev s = z :: m' ->
  unicode.IsSpace a = false -> unicode.IsSpace z = false ->
  strings.TrimSpace s = s.
Proof.
  intros -> Hrev Ha Hz. unfold strings.TrimSpace, strings.TrimRightSpace.
  cbn [strings.TrimLeftSpace]. rewrite Ha, Hrev.
  cbn [strings.TrimLeftSpace]. rewrite Hz, <- Hrev. apply rev_involutive.
Qed.

Lemma field_first (f : gostring) :
  field f -> exists a m, f = a :: m /\ unicode.IsSpace a = false.
Proof.
  intros [Hne Hf]. destruct f as [|a m]; [contradiction|].
  inversion Hf; subst. eauto.
Qed.

Lemma field_last (f : gostring) :
  field f -> exists z m, rev f = z :: m /\ unicode.IsSpace z = false.
Proof.
  intros [Hne Hf]. apply Forall_rev in Hf.
  destruct (rev f) as [|z m] eqn:E.
  - apply (f_equal (@rev _)) in E. rewrite rev_involutive in E. contradiction.
  - inversion Hf; subst. eauto.
Qed.

Lemma Join_last (sep : gostring) (fs : list gostring) : forall f z m,
  rev (last fs f) = z :: m -> fs <> [] ->
  exists m', rev (strings.Join fs sep) = z :: m'.
Proof.
  induction fs as [|a [|b rest] IH]; intros f z m Hlast Hne.
  - contradiction.
  - simpl in *. eauto.
  - destruct (IH f z m) as (m' & E); [exact Hlast | discriminate |].
    change (strings.Join (a :: b :: rest) sep)
      with (a ++ sep ++ strings.Join (b :: rest) sep).
    rewrite !rev_app_distr, E. simpl. eauto.
Qed.

Lemma Join_first (sep : gostring) (a : gostring) (rest : list gostring) (x : rune) (m : gostring) :
  a = x :: m -> exists m', strings.Join (a :: rest) sep = x :: m'.
Proof.
  intros ->. destruct rest; simpl; eauto.
Qed.

Lemma field_noLF (f : gostring) : field f -> noLF f.
Proof.
  intros [_ Hf]. unfold noLF. eapply Forall_impl; [|exact Hf].
  intros r Hr ->. discriminate.
Qed.

Lemma Join_noLF (fs : list gostring) :
  Forall noLF fs -> noLF (strings.Join fs SP).
Proof.
  induction fs as [|a [|b rest] IH]; intros H.
  - constructor.
  - now inversion H.
  - inversion H; subst.
    change (strings.Join (a :: b :: rest) SP)
      with (a ++ SP ++ strings.Join (b :: rest) SP).
    unfold noLF. rewrite !Forall_app. repeat split; auto.
    + repeat constructor. discriminate.
    + now apply IH.
Qed.

Lemma splitFrom_noLF (l : gostring) : forall cur s,
  noLF l ->
  strings.splitFrom LF cur (l ++ s) = strings.splitFrom LF (rev l ++ cur) s.
Proof.
  induction l as [|r l IH]; intros cur s H; simpl; [reflexivity|].
  inversion H as [|? ? Hr Hl]; subst.
  apply N.eqb_neq in Hr. rewrite Hr, IH by assumption.
  now rewrite <- app_assoc.
Qed.

Lemma Split_Join (lines : list gostring) :
  lines <> [] -> Forall noLF lines ->
  strings.Split (strings.Join lines [LF]) LF = lines.
Proof.
  unfold strings.Split.
  induction lines as [|a [|b rest] IH]; intros Hne H.
  - contradiction.
  - inversion H; subst. simpl.
    rewrite <- (app_nil_r a) at 1. rewrite splitFrom_noLF by assumption.
    simpl. now rewrite app_nil_r, rev_involutive.
  - inversion H; subst.
    change (strings.Join (a :: b :: rest) [LF])
      with (a ++ LF :: strings.Join (b :: rest) [LF]).
    rewrite splitFrom_noLF by assumption. simpl.
    rewrite app_nil_r, rev_involutive. f_equal.
    apply IH; [discriminate | assumption].
Qed.

Lemma last_of_map {A B : Type} (f : A -> B) (l : list A) (d : A) :
  last (map f l) (f d) = f (last l d).
Proof.
  induction l as [|a [|b l] IH]; try reflexivity.
  exact IH.
Qed.

Section RoundTrip.
Import SystemdMonitorService.

Lemma description_words (d : gostring) :
  strings.Join (strings.Fields d) SP = d -> d <> [] ->
  strings.Fields d <> [].
Proof.
  intros E Hne H. rewrite H in E. simpl in E. now subst.
Qed.

Lemma Fields_renderUnit (u : SystemdUnit) :
  wellFormedUnit u ->
  strings.Fields (renderUnit u)
  = [Unit u; Load u; Active u; Sub u] ++ strings.Fields (Description u).
Proof.
  intros (Hu & Hl & Ha & Hs & Hd). unfold renderUnit.
  destruct (Description u) as [|r d] eqn:E.
  - rewrite Fields_Join
      by (simpl; repeat (apply Forall_cons; [assumption|]); apply Forall_nil).
    reflexivity.
  - change (strings.Join ([Unit u; Load u; Active u; Sub u] ++ [r :: d]) SP)
      with (Unit u ++ 32%N :: (Load u ++ 32%N :: (Active u ++ 32%N
              :: (Sub u ++ 32%N :: (r :: d))))).
    now rewrite !Fields_field_then by (assumption || reflexivity).
Qed.

Lemma parseLine_renderUnit (u : SystemdUnit) :
  wellFormedUnit u -> parseLine [] (renderUnit u) = [u].
Proof.
  intros Hw. pose proof (Fields_renderUnit u Hw) as E.
  rewrite parseLine_record by (rewrite E; simpl; lia).
  rewrite E. destruct Hw as (_ & _ & _ & _ & Hd).
  unfold unitOf, index. simpl. rewrite Hd. now destruct u.
Qed.

Lemma renderUnit_noLF (u : SystemdUnit) : wellFormedUnit u -> noLF (renderUnit u).
Proof.
  intros (Hu & Hl & Ha & Hs & Hd). unfold renderUnit. apply Join_noLF.
  apply Forall_app. split.
  - repeat (apply Forall_cons; [now apply field_noLF|]). apply Forall_nil.
  - destruct (Description u) as [|r d] eqn:E; constructor; [|constructor].
    rewrite <- Hd. apply Join_noLF.
    eapply Forall_impl; [exact field_noLF | apply Fields_fields].
Qed.

Lemma renderUnit_first (u : SystemdUnit) :
  wellFormedUnit u ->
  exists a m, renderUnit u = a :: m /\ unicode.IsSpace a = false.
Proof.
  intros (Hu & _). destruct (field_first _ Hu) as (a & m & E & Ha).
  unfold renderUnit.
  destruct (Join_first SP (Unit u)
              ([Load u; Active u; Sub u]
               ++ match Description u with [] => [] | _ :: _ => [Description u] end)
              a m E) as (m' & E').
  exists a, m'. split; [exact E' | exact Ha].
Qed.

Lemma renderUnit_last (u : SystemdUnit) :
  wellFormedUnit u ->
  exists z m, rev (renderUnit u) = z :: m /\ unicode.IsSpace z = false.
Proof.
  intros (Hu & Hl & Ha & Hs & Hd). unfold renderUnit.
  destruct (Description u) as [|r d] eqn:E.
  - destruct (field_last _ Hs) as (z & m & Ez & Hz).
    destruct (Join_last SP [Unit u; Load u; Active u; Sub u] [] z m) as (m' & E');
      [exact Ez | discriminate |].
    exists z, m'. split; [exact E' | exact Hz].
  - assert (Hwords : strings.Fields (r :: d) <> [])
      by (apply description_words; [exact Hd | discriminate]).
    assert (Hlast : field (last (strings.Fields (r :: d)) [])).
    { pose proof (Fields_fields (r :: d)) as Hall.
      rewrite Forall_forall in Hall. apply Hall.
      destruct (exists_last Hwords) as (init & x & Ex). rewrite Ex.
      rewrite last_last. apply in_or_app. right. now left. }
    destruct (field_last _ Hlast) as (z & m & Ez & Hz).
    destruct (Join_last SP (strings.Fields (r :: d)) [] z m Ez Hwords) as (m1 & E1).
    rewrite Hd in E1.
    destruct (Join_last SP ([Unit u; Load u; Active u; Sub u] ++ [r :: d]) [] z m1)
      as (m' & E'); [exact E1 | discriminate |].
    exists z, m'. split; [exact E' | exact Hz].
Qed.

End RoundTrip.

(** X3. Units that a parse can give (four fields and a description of fields
    joined by single spaces), written one per line the way [systemctl]
    prints them, are read back by the parse as they were, in their order. *)
Theorem parseOutput_renderUnits (us : list SystemdUnit) :
  Forall wellFormedUnit us ->
  SystemdMonitorService.parseOutput (renderUnits us) = us.
Proof.
  intros Hall. destruct us as [|u us]; [reflexivity|].
  unfold SystemdMonitorService.parseOutput, renderUnits.
  assert (Hlines : Forall noLF (map renderUnit (u :: us))).
  { apply Forall_map. eapply Forall_impl; [exact renderUnit_noLF | exact Hall]. }
  assert (Htrim : strings.TrimSpace (strings.Join (map renderUnit (u :: us)) [LF])
                  = strings.Join (map renderUnit (u :: us)) [LF]).
  { inversion Hall as [|? ? Hu Hus]; subst.
    destruct (renderUnit_first u Hu) as (a & m & Ea & Ha).
    destruct (Join_first [LF] (renderUnit u) (map renderUnit us) a m Ea) as (m' & Ea').
    assert (Hlast : wellFormedUnit (last (u :: us) u)).
    { rewrite Forall_forall in Hall. apply Hall.
      destruct (@exists_last _ (u :: us)) as (init & x & Ex); [discriminate|].
      rewrite Ex, last_last. apply in_or_app. right. now left. }
    destruct (renderUnit_last _ Hlast) as (z & mz & Ez & Hz).
    destruct (Join_last [LF] (map renderUnit (u :: us)) (renderUnit u) z mz)
      as (mz' & Ez'); [|discriminate|].
    { rewrite last_of_map. exact Ez. }
    eapply TrimSpace_solid; eauto. }
  rewrite Htrim, Split_Join by (assumption || discriminate).
  rewrite parseLines_flat_map, flat_map_concat_map, map_map.
  clear Hlines Htrim. induction Hall as [|x xs Hx _ IH]; [reflexivity|].
  simpl. rewrite parseLine_renderUnit by assumption. simpl. f_equal. exact IH.
Qed.

(** ** registerHost and Start on every path *)

Section EveryPath.
Import HostRegistrationService.

Lemma registerHost_outcomes (w : World) (hostname ipAddress osVersion : gostring) (s : t) :
  let r := registerHost w hostname ipAddress osVersion s in
  List.length (lookupCalls (events r)) <= 1
  /\ List.length (createCalls (events r)) <= 1
  /\ List.length (saveCalls (events r)) <= 1
  /\ (saveCalls (events r) <> [] -> createCalls (events r) <> [])
  /\ heartbeatStarts (events r) = []
  /\ monitorStarts (events r) = []
  /\ osVersionWarnings (events r) = []
  /\ match snd r with
     | Returned (None, s') =>
         sameButRID s s'
         /\ HostRid (HostRegistration (config s')) = hostRid s'
         /\ client s <> None
         /\ (createCalls (events r) = [] ->
             hostRid s' = HostRid (HostRegistration (config s))
             /\ config s' = config s /\ hostRid s' <> [])
     | Returned (Some _, s') => s' = s /\ saveCalls (events r) = []
     | Panicked _ =>
         client s = None
         /\ lookupCalls (events r) = [] /\ createCalls (events r) = []
         /\ saveCalls (events r) = []
     end.
Proof.
  unfold registerHost, registerHost_create, sameButRID, events. cbn.
  destruct (isEmpty (HostRid (HostRegistration (config s)))) eqn:Hrid; cbn;
    destruct (client s) eqn:Hc; cbn;
    try apply isEmpty_false in Hrid;
    repeat (match goal with
            | H : client ?x = _ |- context [client ?x] => rewrite H
            | |- context [GetApiV1HostsHostRid ?a ?b] =>
                destruct (GetApiV1HostsHostRid a b)
            | |- context [PostApiV1Hosts ?a ?b] => destruct (PostApiV1Hosts a b)
            | |- context [(Get_StatusCode ?r =? StatusOK)%Z && ?j] =>
                destruct ((Get_StatusCode r =? StatusOK)%Z && j)
            | |- context [(Create_StatusCode ?r =? StatusCreated)%Z] =>
                destruct (Create_StatusCode r =? StatusCreated)%Z
            | |- context [JSON201 ?r] => destruct (JSON201 r)
            | |- context [config_SaveConfig ?a ?b ?c] =>
                destruct (config_SaveConfig a b c)
            end; cbn);
    repeat split; auto; try congruence; try discriminate; try lia.
Qed.

End EveryPath.

(** X4. On every path, the nil client included, one resolution makes at
    most one lookup call, at most one create call and at most one call of
    [SaveConfig], saves only if it made a create call, and starts no
    goroutine. *)
Theorem registerHost_call_bounds
    (w : World) (hostname ipAddress osVersion : gostring)
    (s : HostRegistrationService.t) :
  let tr := events (HostRegistrationService.registerHost w hostname ipAddress osVersion s) in
  List.length (lookupCalls tr) <= 1
  /\ List.length (createCalls tr) <= 1
  /\ List.length (saveCalls tr) <= 1
  /\ (saveCalls tr <> [] -> createCalls tr <> [])
  /\ heartbeatStarts tr = []
  /\ monitorStarts tr = [].
Proof.
  destruct (registerHost_outcomes w hostname ipAddress osVersion s)
    as (H1 & H2 & H3 & H4 & H5 & H6 & _).
  cbv zeta. auto 10.
Qed.

(** X5. After a resolution that succeeded, the RID in the configuration is
    the RID of the service, whether it was taken over or newly created; the
    client, the stop channel and the registration URL are as before; and if
    no create call was made, the RID is the non-empty persisted one and the
    configuration is unchanged. *)
Theorem registerHost_success_RID_agrees
    (w : World) (hostname ipAddress osVersion : gostring)
    (s s' : HostRegistrationService.t) (tr : list event) :
  HostRegistrationService.registerHost w hostname ipAddress osVersion s
  = (tr, Returned (None, s')) ->
  HostRid (HostRegistration (HostRegistrationService.config s'))
  = HostRegistrationService.hostRid s'
  /\ sameButRID s s'
  /\ (createCalls tr = [] ->
      HostRegistrationService.hostRid s'
      = HostRid (HostRegistration (HostRegistrationService.config s))
      /\ HostRegistrationService.config s' = HostRegistrationService.config s
      /\ HostRegistrationService.hostRid s' <> []).
Proof.
  intros Hrun.
  destruct (registerHost_outcomes w hostname ipAddress osVersion s)
    as (_ & _ & _ & _ & _ & _ & _ & H).
  cbv zeta in H. unfold events in H. rewrite Hrun in H. cbn in H.
  destruct H as (Hsame & Hagree & _ & Hreuse). auto.
Qed.

(** X6. A resolution that returns an error, on whichever path, leaves the
    service and its configuration exactly as they were and saves nothing. *)
Theorem registerHost_failure_changes_nothing
    (w : World) (hostname ipAddress osVersion : gostring)
    (s s' : HostRegistrationService.t) (tr : list event) (err : goerror) :
  HostRegistrationService.registerHost w hostname ipAddress osVersion s
  = (tr, Returned (Some err, s')) ->
  s' = s /\ saveCalls tr = [].
Proof.
  intros Hrun.
  destruct (registerHost_outcomes w hostname ipAddress osVersion s)
    as (_ & _ & _ & _ & _ & _ & _ & H).
  cbv zeta in H. unfold events in H. rewrite Hrun in H. exact H.
Qed.

Section StartPaths.
Import HostRegistrationService.

Lemma Start_outcomes (w : World) (s : t) :
  let r := Start w s in
  List.length (lookupCalls (events r)) <= 1
  /\ List.length (createCalls (events r)) <= 1
  /\ osVersionWarnings (events r) = []
  /\ monitorStarts (events r) = []
  /\ match snd r with
     | Returned (None, s') =>
         if isEmpty (SprinterURL (HostRegistration (config s)))
         then heartbeatStarts (events r) = [] /\ s' = s
         else heartbeatStarts (events r) = [hostRid s']
              /\ HostRid (HostRegistration (config s')) = hostRid s'
              /\ sameButRID s s'
              /\ client s <> None
     | Returned (Some _, s') => heartbeatStarts (events r) = [] /\ s' = s
     | Panicked _ => heartbeatStarts (events r) = [] /\ client s = None
     end.
Proof.
  unfold Start. cbn -[registerHost getOSVersion getLocalIP].
  destruct (isEmpty (SprinterURL (HostRegistration (config s)))) eqn:Hurl;
    [cbn; repeat split; auto|].
  destruct (os_Hostname w) as [hostname|e]; [|cbn; repeat split; auto].
  destruct (getLocalIP w) as [ip|e]; [|cbn; repeat split; auto].
  destruct (getOSVersion_ok w) as (v & ->).
  cbn -[registerHost].
  pose proof (registerHost_outcomes w hostname ip v s) as H. cbv zeta in H.
  unfold events in *.
  destruct (registerHost w hostname ip v s) as [tr [[[e|] s']|p]];
    cbn [fst snd] in H |- *;
    destruct H as (H1 & H2 & H3 & H4 & H5 & H6 & H7 & H8).
  - rewrite app_nil_r. destruct H8 as [-> _]. repeat split; auto.
  - destruct H8 as (Hs & Ha & Hcl & _).
    unfold heartbeatStarts, lookupCalls, createCalls, osVersionWarnings, monitorStarts in *.
    rewrite !flat_map_app, H5, H6, H7. cbn [flat_map app].
    rewrite !app_nil_r. repeat split; auto; apply Hs.
  - destruct H8 as (Hc & _). repeat split; auto.
Qed.

End StartPaths.

(** X8. [Start] executes the [go] statement of the heartbeat at most once,
    and only in a run that returns nil after a registration: the heartbeat
    then carries the RID of the service, which is the RID in its
    configuration. A run that returns nil with a registration URL starts
    exactly that one heartbeat. *)
Theorem Start_heartbeat_only_when_registered
    (w : World) (s : HostRegistrationService.t) :
  let r := HostRegistrationService.Start w s in
  List.length (heartbeatStarts (events r)) <= 1
  /\ (forall rid, In rid (heartbeatStarts (events r)) ->
        exists s', snd r = Returned (None, s')
                   /\ HostRegistrationService.hostRid s' = rid
                   /\ HostRid (HostRegistration (HostRegistrationService.config s')) = rid)
  /\ (forall s', snd r = Returned (None, s') ->
        SprinterURL (HostRegistration (HostRegistrationService.config s)) <> [] ->
        heartbeatStarts (events r) = [HostRegistrationService.hostRid s']).
Proof.
  pose proof (Start_outcomes w s) as H. cbv zeta in H |- *.
  destruct H as (_ & _ & _ & _ & H).
  destruct (snd (HostRegistrationService.Start w s)) as [[[e|] s']|p].
  - destruct H as [-> _]. repeat split; simpl; auto; try contradiction.
    intros ? E. discriminate.
  - destruct (isEmpty (SprinterURL (HostRegistration (HostRegistrationService.config s))))
      eqn:Hurl.
    + destruct H as [-> ->]. repeat split; simpl; auto; try contradiction.
      intros ? _ Hne. apply isEmpty_true in Hurl. contradiction.
    + destruct H as (-> & Hagree & _). repeat split; simpl; auto.
      * intros rid [<-|[]]. eauto.
      * intros ? E _. now injection E as <-.
  - destruct H as [-> _]. repeat split; simpl; auto; try contradiction.
    intros ? E. discriminate.
Qed.

(** X9. [Start] tries once: a run makes at most one lookup call and at most
    one create call, and a run that returns an error leaves the service as
    it was (so without RID, if it had none) and starts no heartbeat. *)
Theorem Start_single_attempt (w : World) (s : HostRegistrationService.t) :
  let r := HostRegistrationService.Start w s in
  List.length (lookupCalls (events r)) <= 1
  /\ List.length (createCalls (events r)) <= 1
  /\ (forall err s', snd r = Returned (Some err, s') ->
        s' = s /\ heartbeatStarts (events r) = []).
Proof.
  pose proof (Start_outcomes w s) as H. cbv zeta in H |- *.
  destruct H as (H1 & H2 & _ & _ & H).
  split; [exact H1|]. split; [exact H2|].
  intros err s' E. rewrite E in H. destruct H; auto.
Qed.

(** X10. [getOSVersion] returns a version in every world, never an error;
    so [Start] never logs the warning of a failed OS version (and never
    falls back to the version it would then send). *)
Theorem getOSVersion_never_fails (w : World) :
  (exists v, HostRegistrationService.getOSVersion w = Ok v)
  /\ forall s, osVersionWarnings (events (HostRegistrationService.Start w s)) = [].
Proof.
  split; [apply getOSVersion_ok|].
  intros s. now destruct (Start_outcomes w s) as (_ & _ & H & _).
Qed.

Section MainRuns.
Import main.

Lemma watcher_no_RID (polls : list HostRegistrationService.t) (once : bool) :
  Forall (fun p => HostRegistrationService.GetHostRid p = []) polls ->
  watcher polls once = ([], Returned (Waiting, once)).
Proof.
  induction 1 as [|p polls Hp _ IH]; [reflexivity|].
  cbn -[startMonitor]. rewrite Hp. cbn -[startMonitor]. exact IH.
Qed.

Lemma repeat_Forall {A : Type} (P : A -> Prop) (a : A) (n : nat) :
  P a -> Forall P (repeat a n).
Proof. intros H. induction n; simpl; constructor; auto. Qed.

Lemma main_setup_service (w : World) (path : gostring) (cfg : Config)
    (tr : list event) (err : option goerror) (s' : HostRegistrationService.t) :
  config_LoadConfig w path = Ok cfg ->
  HostRegistrationService.Start w
    (snd (HostRegistrationService.NewHostRegistrationService w cfg))
  = (tr, Returned (err, s')) ->
  exists tr', main_setup w path = (tr', Returned (Some s')).
Proof.
  intros Hcfg Hstart. unfold main_setup. rewrite Hcfg.
  destruct (HostRegistrationService.NewHostRegistrationService w cfg) as [t0 svc].
  cbn [snd] in Hstart. rewrite Hstart. eauto.
Qed.

End MainRuns.

(** X12. If the configuration loads but [Start] returns an error, nothing
    registers the host later: at every poll the watcher finds the RID empty,
    produces no event and keeps waiting, however many polls it gets; the
    other revision of [main] starts no monitor either. *)
Theorem main_never_monitors_after_failed_registration
    (w : World) (path : gostring) (cfg : Config) (n : nat)
    (tr : list event) (err : goerror) (s' : HostRegistrationService.t) :
  config_LoadConfig w path = Ok cfg ->
  HostRegistrationService.Start w
    (snd (HostRegistrationService.NewHostRegistrationService w cfg))
  = (tr, Returned (Some err, s')) ->
  main.watcher (repeat s' n) false = ([], Returned (Waiting, false))
  /\ main.main_watcher w path n = []
  /\ monitorStarts (main.main_blocking w path) = [].
Proof.
  intros Hcfg Hstart.
  destruct (main_setup_service w path cfg tr (Some err) s' Hcfg Hstart) as (tr' & Hsetup).
  assert (Hrid : HostRegistrationService.GetHostRid s' = []).
  { destruct (Start_outcomes w
                (snd (HostRegistrationService.NewHostRegistrationService w cfg)))
      as (_ & _ & _ & _ & H).
    cbv zeta in H. rewrite Hstart in H. destruct H as [_ ->]. reflexivity. }
  assert (Hw : main.watcher (repeat s' n) false = ([], Returned (Waiting, false)))
    by (apply watcher_no_RID, repeat_Forall, Hrid).
  split; [exact Hw|]. split.
  - unfold main.main_watcher. rewrite Hsetup, Hw. reflexivity.
  - unfold main.main_blocking, main.blocking_monitor. rewrite Hsetup, Hrid. reflexivity.
Qed.

(** X13. In the same world the two revisions of [main] start the same
    monitors: the polling watcher, given at least one poll, executes the
    [go] statement of the monitor for the same RIDs as the revision that
    looks at the RID once. *)
Theorem main_revisions_start_the_same_monitor
    (w : World) (path : gostring) (n : nat) :
  1 <= n ->
  monitorStarts (main.main_watcher w path n)
  = monitorStarts (main.main_blocking w path).
Proof.
  intros Hn. unfold main.main_watcher, main.main_blocking.
  destruct (main.main_setup w path) as [tr0 [[svc|]|p]]; try reflexivity.
  destruct n as [|n]; [lia|].
  unfold main.blocking_monitor. cbn -[main.startMonitor].
  destruct (HostRegistrationService.GetHostRid svc) as [|r rid] eqn:Hrid.
  - cbn -[main.startMonitor].
    rewrite watcher_no_RID by (apply repeat_Forall, Hrid). reflexivity.
  - unfold main.startMonitor. cbn.
    destruct (HostRegistrationService.GetClient svc); reflexivity.
Qed.

Section HeartbeatAfterStart.
Import HostRegistrationService.

Lemma startHeartbeat_run (arrivals : list selected) (s : t) (c : ClientWithResponses) :
  client s = Some c ->
  exists tr st,
    startHeartbeat arrivals s = (tr, Returned (st, s))
    /\ Forall (fun rid => rid = hostRid s) (heartbeatCalls tr).
Proof.
  intros Hc. induction arrivals as [|[w|] later (tr & st & Hrun & Hall)].
  - exists [], Waiting. split; [reflexivity | constructor].
  - destruct (sendHeartbeat_run w s c Hc) as (tr1 & r & Hsend & Hc1 & _).
    cbn -[sendHeartbeat]. rewrite Hsend.
    destruct r as [err|]; cbn; rewrite Hrun; eexists _, st; (split; [reflexivity|]);
      try change (Log ?f ?a :: tr) with ([Log f a] ++ tr);
      rewrite !heartbeatCalls_app, Hc1; cbn; constructor; auto.
  - exists [], Exited. split; [reflexivity | constructor].
Qed.

End HeartbeatAfterStart.

(** X16. After a [Start] that returned nil on a service with a registration
    URL, the heartbeat loop runs on the service [Start] left without panic,
    on any arrivals, and every heartbeat it sends is addressed to the RID
    that [Start] resolved, which is the one in the configuration. *)
Theorem heartbeat_carries_the_registered_RID
    (w : World) (s s' : HostRegistrationService.t) (tr : list event)
    (arrivals : list selected) :
  SprinterURL (HostRegistration (HostRegistrationService.config s)) <> [] ->
  HostRegistrationService.Start w s = (tr, Returned (None, s')) ->
  heartbeatStarts tr = [HostRegistrationService.hostRid s']
  /\ exists tr' st,
       HostRegistrationService.startHeartbeat arrivals s' = (tr', Returned (st, s'))
       /\ Forall (fun rid =>
                    rid = HostRegistrationService.hostRid s'
                    /\ rid = HostRid (HostRegistration (HostRegistrationService.config s')))
                 (heartbeatCalls tr').
Proof.
  intros Hurl Hstart. apply isEmpty_false in Hurl.
  destruct (Start_outcomes w s) as (_ & _ & _ & _ & H).
  cbv zeta in H. unfold events in H. rewrite Hstart in H. cbn [fst snd] in H.
  rewrite Hurl in H. destruct H as (Hhb & Hagree & (Hcl & _) & Hsome).
  split; [exact Hhb|].
  destruct (HostRegistrationService.client s') as [c|] eqn:Hc;
    [|congruence].
  destruct (startHeartbeat_run arrivals s' c Hc) as (tr' & st & Hrun & Hall).
  exists tr', st. split; [exact Hrun|].
  eapply Forall_impl; [|exact Hall]. intros rid ->. now rewrite Hagree.
Qed.

(** ** The monitor loop *)

Section MonitorLoop.
Import SystemdMonitorService.

Lemma reportSystemdServices_run (w : World) (s : t) (c : ClientWithResponses) :
  client s = Some c ->
  exists tr,
    reportSystemdServices w s = (tr, Returned (tt, s))
    /\ putCalls tr = [(hostRid s, {| Services := collected w |})].
Proof.
  intros Hc.
  destruct (getSystemdServices_run w s)
    as (tr1 & r & Hrun & Hp1 & Habsent & Hexit & Hok).
  assert (Hr : (r = Ok (collected w)) \/ (exists e, r = Err e) /\ collected w = []).
  { unfold collected.
    destruct (exec_LookPath w (str "systemctl")) as [e|] eqn:Hlp.
    - left. apply Habsent. discriminate.
    - destruct (RunErr (exec_Output w (str "systemctl") systemctlArgs)) as [e|] eqn:Hre.
      + right. split; [|reflexivity]. apply Hexit; [reflexivity | discriminate].
      + left. now apply Hok. }
  unfold reportSystemdServices.
  erewrite bind_returned by exact Hrun.
  destruct Hr as [-> | [(e & ->) Hnone]].
  - destruct (report_after w s c (collected w) Hc) as (tr3 & Hrep & Hp3).
    erewrite (bind_returned (ret (collected w))) by reflexivity.
    rewrite Hrep. cbn. eexists. split; [reflexivity|].
    now rewrite putCalls_app, Hp1, Hp3.
  - destruct (report_after w s c [] Hc) as (tr3 & Hrep & Hp3).
    destruct (diagnose_run w e s) as (tr2 & Hdiag & Hp2).
    erewrite (bind_returned (diagnose w e ;; ret [])).
    2:{ erewrite bind_returned by exact Hdiag. cbn. reflexivity. }
    rewrite Hrep. cbn. eexists. split; [reflexivity|].
    rewrite !putCalls_app, Hp1, Hp2, Hp3, Hnone. reflexivity.
Qed.

Lemma monitorLoop_select_run (arrivals : list selected) (s : t) (c : ClientWithResponses) :
  client s = Some c ->
  exists tr st,
    monitorLoop_select arrivals s = (tr, Returned (st, s))
    /\ putCalls tr
       = map (fun w => (hostRid s, {| Services := collected w |}))
             (ticksBeforeStop arrivals)
    /\ (st = Exited <-> In StopChan arrivals).
Proof.
  intros Hc.
  induction arrivals as [|[w|] later (tr & st & Hrun & Hputs & Hex)].
  - exists [], Waiting. repeat split; try discriminate. intros [].
  - destruct (reportSystemdServices_run w s c Hc) as (tr1 & Hrep & Hp1).
    cbn [monitorLoop_select]. erewrite bind_returned by exact Hrep.
    rewrite Hrun. cbn [fst snd]. exists (tr1 ++ tr), st.
    split; [reflexivity|]. rewrite putCalls_app, Hp1, Hputs. split; [reflexivity|].
    split.
    + intros E. right. now apply Hex.
    + intros [E|E]; [discriminate | now apply Hex].
  - exists [], Exited. repeat split. now left.
Qed.

End MonitorLoop.

(** X14. The monitor loop reports once at its start and once for every tick
    that arrives before the stop channel does, each time with one call that
    carries the units collected in the world of that iteration (none when
    the collection failed), all under the host RID of the monitor; no
    failure ends it: it has returned exactly when the stop channel is among
    the arrivals, and the service is as before. *)
Theorem monitorLoop_reports_every_tick
    (now : World) (arrivals : list selected)
    (s : SystemdMonitorService.t) (c : ClientWithResponses) :
  SystemdMonitorService.client s = Some c ->
  exists tr st,
    SystemdMonitorService.monitorLoop now arrivals s = (tr, Returned (st, s))
    /\ putCalls tr
       = map (fun w => (SystemdMonitorService.hostRid s, {| Services := collected w |}))
             (now :: ticksBeforeStop arrivals)
    /\ (st = Exited <-> In StopChan arrivals)
    /\ (st = Waiting <-> ~ In StopChan arrivals).
Proof.
  intros Hc.
  destruct (reportSystemdServices_run now s c Hc) as (tr1 & Hrep & Hp1).
  destruct (monitorLoop_select_run arrivals s c Hc) as (tr & st & Hrun & Hputs & Hex).
  unfold SystemdMonitorService.monitorLoop.
  erewrite bind_returned by exact Hrep. rewrite Hrun. cbn [fst snd].
  exists (tr1 ++ tr), st. split; [reflexivity|].
  rewrite putCalls_app, Hp1, Hputs. split; [reflexivity|]. split; [exact Hex|].
  destruct st; split; intros H; try discriminate; try reflexivity.
  - intros Hin. apply Hex in Hin. discriminate.
  - exfalso. apply H. now apply Hex.
Qed.

(** ** The error of a failed run *)

Lemma HasPrefix_app (p s : gostring) : strings.HasPrefix (p ++ s) p = true.
Proof.
  induction p as [|x p IH]; simpl; [now destruct s|].
  now rewrite N.eqb_refl, IH.
Qed.

Lemma Contains_unfold (s sub : gostring) :
  strings.Contains s sub
  = strings.HasPrefix s sub
    || match s with [] => false | _ :: s' => strings.Contains s' sub end.
Proof. destruct s; reflexivity. Qed.

Lemma Contains_here (sub s : gostring) : strings.Contains (sub ++ s) sub = true.
Proof. now rewrite Contains_unfold, HasPrefix_app. Qed.

Lemma Contains_after (a s sub : gostring) :
  strings.Contains s sub = true -> strings.Contains (a ++ s) sub = true.
Proof.
  intros H. induction a as [|x a IH]; [exact H|].
  rewrite Contains_unfold. simpl. rewrite IH. apply orb_true_r.
Qed.

Lemma Contains_inside (a sub b : gostring) :
  strings.Contains (a ++ sub ++ b) sub = true.
Proof. apply Contains_after, Contains_here. Qed.

Lemma Contains_self (sub : gostring) : strings.Contains sub sub = true.
Proof. rewrite <- (app_nil_r sub) at 1. apply Contains_here. Qed.

Ltac find_sub :=
  first [ assumption
        | apply Contains_here
        | apply Contains_self
        | apply Contains_after; find_sub ].

(** X15. When [systemctl] is found but its run fails, [getSystemdServices]
    logs nothing and returns the error of the run wrapped (so that
    [errors.As] and [errors.Is] still see it); for an exit error the text
    put before it names the exit code, holds the trimmed standard error
    output, and for exit code 1 the hint at a permission issue. *)
Theorem getSystemdServices_wraps_the_run_error
    (w : World) (s : SystemdMonitorService.t) (err : goerror) :
  let run := exec_Output w (str "systemctl") SystemdMonitorService.systemctlArgs in
  exec_LookPath w (str "systemctl") = None ->
  RunErr run = Some err ->
  exists prefix,
    SystemdMonitorService.getSystemdServices w s
    = ([], Returned (Err (Wrap prefix err), s))
    /\ forall exitCode stderr,
         errors.AsExitError err = Some (exitCode, stderr) ->
         strings.Contains prefix (Itoa exitCode) = true
         /\ strings.Contains prefix (strings.TrimSpace (StderrBuf run)) = true
         /\ (exitCode = 1%Z ->
             strings.Contains prefix (str "likely permission issue") = true).
Proof.
  intros run Hlp Hre. unfold SystemdMonitorService.getSystemdServices.
  rewrite Hlp. fold run. rewrite Hre.
  destruct (errors.AsExitError err) as [[code se]|] eqn:Has.
  - eexists. split; [reflexivity|].
    intros exitCode stderr E. injection E as <- <-.
    set (hint := str " (likely permission issue - systemctl may require elevated privileges)").
    assert (Hhint : strings.Contains hint (str "likely permission issue") = true)
      by (vm_compute; reflexivity).
    destruct (isEmpty (strings.TrimSpace (StderrBuf run))) eqn:Hse; cbn [negb];
      destruct (code =? 1)%Z eqn:Hcode;
      try (apply isEmpty_true in Hse; rewrite Hse);
      (split; [|split]);
      try (intros Hone; try (subst code; discriminate));
      rewrite <- ?app_assoc;
      try (rewrite Contains_unfold; now destruct (_ ++ _));
      find_sub.
  - destruct (SystemdMonitorService.permissionDenied err);
      [|destruct (negb (isEmpty (strings.TrimSpace (StderrBuf run))))];
      (eexists; split; [reflexivity|]; intros; discriminate).
Qed.

(** X7. When the host is created but [SaveConfig] fails, the failure is
    logged as a warning and nothing more: the resolution still returns nil,
    and the new RID is the RID of the service and of its configuration in
    memory. *)
Theorem registerHost_save_failure_is_only_logged
    (w : World) (hostname ipAddress osVersion : gostring)
    (s : HostRegistrationService.t) (c : ClientWithResponses)
    (host : Host) (e : goerror) :
  HostRegistrationService.client s = Some c ->
  HostRid (HostRegistration (HostRegistrationService.config s)) = [] ->
  createdWith (PostApiV1Hosts (api w) (createRequest w hostname ipAddress osVersion)) host ->
  config_SaveConfig w
    (setConfigHostRid (HostRegistrationService.config s) (Host_HostRid host)) configPath
  = Some e ->
  exists tr s',
    HostRegistrationService.registerHost w hostname ipAddress osVersion s
    = (tr, Returned (None, s'))
    /\ HostRegistrationService.hostRid s' = Host_HostRid host
    /\ HostRid (HostRegistration (HostRegistrationService.config s')) = Host_HostRid host
    /\ In (Log "Warning: failed to save host RID to config: %v" [AErr e]) tr.
Proof.
  intros Hc Hrid (resp & Hpost & Hst & Hbody) Hsave.
  unfold HostRegistrationService.registerHost, HostRegistrationService.registerHost_create.
  fold (createRequest w hostname ipAddress osVersion).
  cbn. rewrite Hrid. cbn. rewrite Hc. cbn. rewrite Hpost. cbn.
  rewrite Hst. cbn. rewrite Hbody. cbn.
  unfold configPath in Hsave. rewrite Hsave. cbn.
  do 2 eexists. split; [reflexivity|]. cbn. repeat split. auto 10.
Qed.

(** ** getOSVersion *)

Section OSVersion.
Import HostRegistrationService.

Lemma prettyName_first (before : list gostring) (rest : gostring) (after : list gostring) :
  Forall (fun line => strings.HasPrefix line (str "PRETTY_NAME=") = false) before ->
  prettyName (before ++ (str "PRETTY_NAME=" ++ rest) :: after)
  = Some (strings.Trim rest QUOTE).
Proof.
  induction 1 as [|line before Hline _ IH]; cbn [prettyName app].
  - rewrite HasPrefix_app. unfold strings.TrimPrefix. rewrite HasPrefix_app.
    now rewrite skipn_app, skipn_all, Nat.sub_diag.
  - now rewrite Hline.
Qed.

Lemma trimLeftRune_keeps (c : rune) (s : gostring) :
  match s with [] => True | x :: _ => x <> c end ->
  strings.trimLeftRune c s = s.
Proof.
  destruct s as [|x s]; [reflexivity|]. intros H. simpl.
  apply N.eqb_neq in H. now rewrite H.
Qed.

Lemma Trim_quoted (v : gostring) :
  Forall (fun r => r <> QUOTE) v ->
  strings.Trim (QUOTE :: v ++ [QUOTE]) QUOTE = v.
Proof.
  intros Hv. unfold strings.Trim. cbn [strings.trimLeftRune]. rewrite N.eqb_refl.
  assert (E : strings.trimLeftRune QUOTE (v ++ [QUOTE]) = v ++ [QUOTE] \/ v = []).
  { destruct v as [|x v]; [now right|]. left. apply trimLeftRune_keeps.
    now inversion Hv. }
  destruct E as [E | ->].
  - rewrite E, rev_app_distr. cbn [rev app strings.trimLeftRune]. rewrite N.eqb_refl.
    rewrite trimLeftRune_keeps; [apply rev_involutive|].
    apply Forall_rev in Hv. destruct (rev v); [exact I | now inversion Hv].
  - cbn. reflexivity.
Qed.

End OSVersion.

(** X11. On Linux, when [/etc/os-release] can be read and its first line that
    starts with PRETTY_NAME= holds a quoted value, [getOSVersion] returns
    that value without the quotes, whatever lines come before and after. *)
Theorem getOSVersion_reads_PRETTY_NAME
    (w : World) (before : list gostring) (v : gostring) (after : list gostring) :
  let line := str "PRETTY_NAME=" ++ QUOTE :: v ++ [QUOTE] in
  GOOS w = str "linux" ->
  os_ReadFile w (str "/etc/os-release")
  = Ok (strings.Join (before ++ line :: after) [LF]) ->
  Forall noLF (before ++ line :: after) ->
  Forall (fun l => strings.HasPrefix l (str "PRETTY_NAME=") = false) before ->
  Forall (fun r => r <> QUOTE) v ->
  HostRegistrationService.getOSVersion w = Ok v.
Proof.
  intros line Hos Hfile Hlines Hbefore Hv.
  unfold HostRegistrationService.getOSVersion.
  rewrite Hos. destruct (gostring_eq_dec (str "linux") (str "linux")); [|contradiction].
  rewrite Hfile, Split_Join; [|now destruct before | exact Hlines].
  unfold line. rewrite prettyName_first by assumption.
  now rewrite Trim_quoted.
Qed.

(** ** The further properties on [box1] *)

(** The first unit of the scenario comes out of a parse, and is well formed. *)
Lemma parseOutput_wellFormed_witness : wellFormedUnit sshd.
Proof.
  apply (parseOutput_wellFormed systemctlOutput sshd).
  vm_compute. left. reflexivity.
Defined.

Lemma scenario_units_wellFormed : Forall wellFormedUnit [sshd; cron].
Proof.
  repeat (apply Forall_cons; [|try apply Forall_nil]);
    unfold wellFormedUnit, field;
    repeat split; try (vm_compute; discriminate);
    try (vm_compute; reflexivity);
    vm_compute; repeat (apply Forall_cons; [reflexivity|]); apply Forall_nil.
Qed.

(** The two units of the scenario, written and read back. *)
Lemma parseOutput_renderUnits_witness :
  SystemdMonitorService.parseOutput (renderUnits [sshd; cron]) = [sshd; cron].
Proof.
  exact (parseOutput_renderUnits [sshd; cron] scenario_units_wellFormed).
Defined.

(** The creation of [h1]: RID and configuration agree afterwards. *)
Lemma registerHost_success_RID_agrees_witness :
  HostRid (HostRegistration (HostRegistrationService.config created))
  = HostRegistrationService.hostRid created.
Proof.
  refine (proj1 (registerHost_success_RID_agrees box1
                   (str "box1") (str "10.0.0.5") (str "Unknown")
                   (serviceOn cfgFresh) created _ _)).
  vm_compute. reflexivity.
Defined.

(** A creation that cannot reach the inventory service. *)
Lemma registerHost_failure_changes_nothing_witness :
  exists tr err,
    HostRegistrationService.registerHost box1_offline
      (str "box1") (str "10.0.0.5") (str "Unknown") (serviceOn cfgFresh)
    = (tr, Returned (Some err, serviceOn cfgFresh))
    /\ saveCalls tr = [].
Proof.
  eexists _, _.
  assert (E : HostRegistrationService.registerHost box1_offline
                (str "box1") (str "10.0.0.5") (str "Unknown") (serviceOn cfgFresh)
              = (_, Returned (Some _, serviceOn cfgFresh)))
    by (vm_compute; reflexivity).
  split; [exact E|].
  exact (proj2 (registerHost_failure_changes_nothing _ _ _ _ _ _ _ _ E)).
Defined.

(** The creation of [h1] on a disk that cannot be written. *)
Lemma registerHost_save_failure_is_only_logged_witness :
  exists tr s',
    HostRegistrationService.registerHost (withSaveConfig box1 (Some readOnlyDisk))
      (str "box1") (str "10.0.0.5") (str "Unknown") (serviceOn cfgFresh)
    = (tr, Returned (None, s'))
    /\ HostRegistrationService.hostRid s' = str "h1"
    /\ HostRid (HostRegistration (HostRegistrationService.config s')) = str "h1"
    /\ In (Log "Warning: failed to save host RID to config: %v" [AErr readOnlyDisk]) tr.
Proof.
  apply (registerHost_save_failure_is_only_logged
           (withSaveConfig box1 (Some readOnlyDisk))
           (str "box1") (str "10.0.0.5") (str "Unknown") (serviceOn cfgFresh)
           {| Server := str "http://inventory:8080" |} h1 readOnlyDisk).
  - reflexivity.
  - reflexivity.
  - exists {| Create_StatusCode := 201; JSON201 := Some h1 |}.
    repeat split; reflexivity.
  - reflexivity.
Defined.

(** [box1] with the [/etc/os-release] of an Ubuntu. *)
Lemma getOSVersion_reads_PRETTY_NAME_witness :
  HostRegistrationService.getOSVersion (withFiles box1 (fun _ => Ok osRelease))
  = Ok (str "Ubuntu 22.04.3 LTS").
Proof.
  apply (getOSVersion_reads_PRETTY_NAME (withFiles box1 (fun _ => Ok osRelease))
           [str "NAME=Ubuntu"] (str "Ubuntu 22.04.3 LTS") [str "ID=ubuntu"; []]).
  - reflexivity.
  - vm_compute. reflexivity.
  - vm_compute.
    repeat (apply Forall_cons;
            [repeat (apply Forall_cons; [discriminate|]); apply Forall_nil|]).
    apply Forall_nil.
  - apply Forall_cons; [reflexivity | apply Forall_nil].
  - vm_compute. repeat (apply Forall_cons; [discriminate|]). apply Forall_nil.
Defined.

(** [main] on [box1] while the inventory service is out of reach. *)
Lemma main_never_monitors_after_failed_registration_witness :
  main.main_watcher box1_offline configPath 5 = []
  /\ monitorStarts (main.main_blocking box1_offline configPath) = [].
Proof.
  assert (E : HostRegistrationService.Start box1_offline
                (snd (HostRegistrationService.NewHostRegistrationService
                        box1_offline cfgFresh))
              = (_, Returned (Some _, _)))
    by (vm_compute; reflexivity).
  exact (proj2 (main_never_monitors_after_failed_registration
                  box1_offline configPath cfgFresh 5 _ _ _ eq_refl E)).
Defined.

(** [main] on [box1]: either revision starts the monitor of [h1]. *)
Lemma main_revisions_start_the_same_monitor_witness :
  monitorStarts (main.main_watcher box1 configPath 3) = [str "h1"]
  /\ monitorStarts (main.main_blocking box1 configPath) = [str "h1"].
Proof.
  assert (E : monitorStarts (main.main_blocking box1 configPath) = [str "h1"])
    by (vm_compute; reflexivity).
  split; [|exact E].
  rewrite (main_revisions_start_the_same_monitor box1 configPath 3); [exact E | lia].
Defined.

(** A monitor that starts on [box1], then meets a tick without
    [systemctl] and a tick on which it is denied, and is stopped. *)
Lemma monitorLoop_reports_every_tick_witness :
  exists tr,
    SystemdMonitorService.monitorLoop box1
      [TickerC box1_noSystemctl; TickerC box1_denied; StopChan; TickerC box1]
      (monitorOf (str "h1"))
    = (tr, Returned (Exited, monitorOf (str "h1")))
    /\ putCalls tr
       = [(str "h1", {| Services := [sshd; cron] |});
          (str "h1", {| Services := [] |});
          (str "h1", {| Services := [] |})].
Proof.
  destruct (monitorLoop_reports_every_tick box1
              [TickerC box1_noSystemctl; TickerC box1_denied; StopChan; TickerC box1]
              (monitorOf (str "h1")) {| Server := str "http://inventory:8080" |} eq_refl)
    as (tr & st & Hrun & Hputs & Hex & _).
  assert (Hst : st = Exited) by (apply Hex; right; right; now left).
  subst st. exists tr. split; [exact Hrun|].
  rewrite Hputs. vm_compute. reflexivity.
Defined.

(** [systemctl] exiting with status 1 on [box1]. *)
Lemma getSystemdServices_wraps_the_run_error_witness :
  exists prefix,
    SystemdMonitorService.getSystemdServices box1_denied (monitorOf (str "h1"))
    = ([], Returned (Err (Wrap prefix (ExitError 1 [] (str "exit status 1"))),
                     monitorOf (str "h1")))
    /\ strings.Contains prefix (str "Failed to connect to bus: Permission denied") = true
    /\ strings.Contains prefix (str "likely permission issue") = true.
Proof.
  destruct (getSystemdServices_wraps_the_run_error box1_denied (monitorOf (str "h1"))
              (ExitError 1 [] (str "exit status 1")) eq_refl eq_refl)
    as (prefix & Hrun & Htext).
  destruct (Htext 1%Z [] eq_refl) as (_ & Hstderr & Hhint).
  exists prefix. split; [exact Hrun|]. split; [exact Hstderr | now apply Hhint].
Defined.

(** The heartbeat of [box1] after its registration as [h1]. *)
Lemma heartbeat_carries_the_registered_RID_witness :
  exists tr st,
    HostRegistrationService.startHeartbeat
      [TickerC box1; TickerC box1_offline] created
    = (tr, Returned (st, created))
    /\ Forall (fun rid => rid = str "h1") (heartbeatCalls tr).
Proof.
  assert (E : HostRegistrationService.Start box1 (serviceOn cfgFresh)
              = (_, Returned (None, created)))
    by (vm_compute; reflexivity).
  destruct (heartbeat_carries_the_registered_RID box1 (serviceOn cfgFresh) created _
              [TickerC box1; TickerC box1_offline]
              ltac:(vm_compute; discriminate) E)
    as (_ & tr & st & Hrun & Hall).
  exists tr, st. split; [exact Hrun|].
  eapply Forall_impl; [|exact Hall]. intros rid [-> _]. reflexivity.
Defined.
